(** * Time-metrics calculator of the attendance tracker

    A shallow embedding of [functions/timeCalculator.js] and of the parts of
    the JavaScript runtime and of moment / moment-timezone that it calls,
    of the two HTTP handlers that call it and of [formatDuration], followed
    by their properties. *)

From Stdlib Require Import ZArith String Ascii List Bool Lia.
From stdpp Require Import base option gmap strings.

Local Open Scope string_scope.
Local Open Scope Z_scope.

(** ** JavaScript values used by the calculator *)

Module JS.

(** A JavaScript number as the calculator meets it: an integer or [NaN].
    Every number the calculator stores is an epoch-millisecond count, a
    whole number of minutes or a clock field, so integers suffice. *)
Inductive jsnum := NaN | Num (z : Z).

Definition jsnum_eq_dec (a b : jsnum) : {a = b} + {a <> b}.
Proof. decide equality. apply Z.eq_dec. Defined.

(** [a >= b] and [a < b]: false as soon as one side is [NaN]. *)
Definition ge (a b : jsnum) : bool :=
  match a, b with Num x, Num y => y <=? x | _, _ => false end.

Definition lt (a b : jsnum) : bool :=
  match a, b with Num x, Num y => x <? y | _, _ => false end.

(** [Math.min(a, b)]. *)
Definition Math_min (a b : jsnum) : jsnum :=
  match a, b with Num x, Num y => Num (Z.min x y) | _, _ => NaN end.

(** [n + 1] (the [nightMinutes++] of the scan). *)
Definition incr (a : jsnum) : jsnum :=
  match a with Num x => Num (x + 1) | NaN => NaN end.

(** What a failing call throws.  [Error] is the calculator's own
    [new Error(message)]; [TypeError] is raised by the runtime when a
    property of [undefined] is read or a non-function is called. *)
Inductive exn :=
| Error (message : string)
| TypeError (message : string).

Definition message (e : exn) : string :=
  match e with Error m => m | TypeError m => m end.

(** The outcome of a call: a value, a synchronous throw, or no outcome
    because a loop did not come to its end. *)
Inductive completion (A : Type) :=
| Return (a : A)
| Throw (e : exn)
| Diverge.
Arguments Return {A} a.
Arguments Throw {A} e.
Arguments Diverge {A}.

Definition bind {A B} (c : completion A) (k : A -> completion B) : completion B :=
  match c with Return a => k a | Throw e => Throw e | Diverge => Diverge end.

(** [s.split(sep)] for a one-character separator. *)
Fixpoint split (sep : ascii) (s : string) : list string :=
  match s with
  | EmptyString => [EmptyString]
  | String c rest =>
      if Ascii.eqb c sep then EmptyString :: split sep rest
      else match split sep rest with
           | part :: parts => String c part :: parts
           | [] => [String c EmptyString]
           end
  end.

(** Decimal digits of a non-negative integer, most significant first. *)
Fixpoint digits_aux (fuel : nat) (n : Z) (acc : string) : string :=
  let acc' := String (ascii_of_nat (48 + Z.to_nat (n mod 10))) acc in
  match fuel with
  | O => acc'
  | S fuel' => if n <? 10 then acc' else digits_aux fuel' (n / 10) acc'
  end.

Definition digits (n : Z) : string :=
  digits_aux (Z.to_nat (Z.log2 n)) n EmptyString.

(** [zeroFill]: [digits] left-padded with zeros to [width] characters. *)
Fixpoint zeros (k : nat) : string :=
  match k with O => EmptyString | S k' => String "0" (zeros k') end.

Definition pad (width : nat) (n : Z) : string :=
  let s := digits n in zeros (width - String.length s) ++ s.

(** [(minutes / 60).toFixed(2)].  The exact quotient is never halfway
    between two hundredths ([10 * m = 6 * n + 3] has no integer solution),
    and it stays at least [1/600] away from such a point, so rounding the
    double that JavaScript computes agrees with rounding the exact
    quotient for every minute count below [2^49]. *)
Definition hoursFixed2 (minutes : jsnum) : string :=
  match minutes with
  | NaN => "NaN"
  | Num m =>
      let n := (10 * Z.abs m + 3) / 6 in
      (if m <? 0 then "-" else "") ++ digits (n / 100) ++ "." ++ pad 2 (n mod 100)
  end.

End JS.

Import JS.

(** ** moment and moment-timezone

    The calculator manipulates instants through moment objects.  A moment
    keeps, as the library does, a date [_d] that holds the local wall-clock
    reading as if it were UTC, the offset [_offset] (minutes east of UTC)
    that was applied to obtain it, and its zone [_z].  The instant denoted is
    [_d - _offset * 60000] epoch milliseconds.  Offsets are whole minutes.
    A Date holds a time of at most 8.64e15 milliseconds either side of the
    epoch: a write to [_d] beyond that range leaves an Invalid Date, and
    the moment is invalid from then on. *)

Module Moment.

(** A time zone: the UTC offset, in minutes east of UTC, in force at each
    instant (given in epoch milliseconds). *)
Definition Zone := Z -> Z.

Definition fixedZone (minutes : Z) : Zone := fun _ => minutes.

Record t := mk {
  isValid : bool;
  _d : Z;
  _offset : Z;
  _z : Zone
}.

(** The time range of a Date ([TimeClip]). *)
Definition maxTime : Z := 8640000000000000.

Definition inRange (time : Z) : bool := (- maxTime <=? time) && (time <=? maxTime).

(** A write to the date, by [setTime] or by a setter of one of its fields:
    the time is kept if a Date can hold it, else the date is invalid. *)
Definition setTime (m : t) (time : Z) : t :=
  {| isValid := isValid m && inRange time; _d := time; _offset := _offset m;
     _z := _z m |}.

Definition with_offset (m : t) (o : Z) : t :=
  {| isValid := isValid m; _d := _d m; _offset := o; _z := _z m |}.

(** The instant of a valid moment, in epoch milliseconds. *)
Definition instant (m : t) : Z := _d m - _offset m * 60000.

(** [m.valueOf()]. *)
Definition valueOf (m : t) : jsnum :=
  if isValid m then Num (instant m) else NaN.

(** [moment(date)] for a Date made from the time [ms], or an invalid Date
    ([None]); also the result of parsing a string.  A time beyond the
    range gives an invalid Date.  No zone is attached yet. *)
Definition ofInstant (ms : option Z) : t :=
  match ms with
  | Some v => {| isValid := inRange v; _d := v; _offset := 0; _z := fixedZone 0 |}
  | None => {| isValid := false; _d := 0; _offset := 0; _z := fixedZone 0 |}
  end.

(** [m.utcOffset(input, true)] called back from [updateOffset] while a
    change is already in progress: the new offset is stored and the date
    is shifted so that the instant is kept. *)
Definition utcOffsetInProgress (m : t) (input : Z) : t :=
  let offset := _offset m in
  let m := with_offset m input in
  if offset =? input then m
  else setTime m (_d m + (input - offset) * 60000).

(** [m.utcOffset(input, keepLocalTime)].  Keeping the local time leaves
    [_d] alone and asks the zone again at the instant this yields.  (For a
    local reading that falls in a gap of the zone's clock the releases of
    moment-timezone differ on the instant that results; no property below
    depends on such a reading.) *)
Definition utcOffset (m : t) (input : Z) (keepLocalTime : bool) : t :=
  let offset := _offset m in
  let m := with_offset m input in
  if offset =? input then m
  else if keepLocalTime then utcOffsetInProgress m (_z m (instant m))
  else setTime m (_d m + (input - offset) * 60000).

(** moment-timezone's [moment.updateOffset(m, keepTime)]. *)
Definition updateOffset (m : t) (keepTime : bool) : t :=
  if isValid m then utcOffset m (_z m (instant m)) keepTime else m.

(** [m.tz(name)]: with a non-empty name the zone is attached and the
    offset updated; with an empty name the call is the getter, which
    returns [undefined] ([None]) for a moment without zone. *)
Definition tz (zoneOf : string -> Zone) (m : t) (name : string) : option t :=
  if String.eqb name "" then None
  else Some (updateOffset
               {| isValid := isValid m; _d := _d m; _offset := _offset m;
                  _z := zoneOf name |} false).

(** [m.clone()]: the copy goes through the constructor, which updates the
    offset of the copy. *)
Definition clone (m : t) : t := updateOffset m false.

(** Getter [m.hour()]. *)
Definition get_hour (m : t) : jsnum :=
  if isValid m then Num ((_d m / 3600000) mod 24) else NaN.

(** Setters.  Each writes the field into [_d] as [Date.prototype.setUTC*]
    does (a value beyond the field's own range carries over into the
    higher fields, a time beyond the range of a Date invalidates it) unless
    the moment is invalid or the value is [NaN], then updates the offset;
    only [hour] keeps the local time.  The time written is computed on
    integers.  Date computes it on doubles, with the same result as long
    as the hour count stays below 2.5e9 and the minute count below 1.5e11
    in absolute value; larger counts leave the range of Date, unless they
    are set against a date of the opposite sign and of a like size. *)
Definition set1 (m : t) (value : jsnum) (write : Z -> Z) : t :=
  match value with
  | Num v => if isValid m then setTime m (write v) else m
  | NaN => m
  end.

Definition hour (m : t) (value : jsnum) : t :=
  updateOffset
    (set1 m value (fun h => _d m / 86400000 * 86400000 + h * 3600000 + _d m mod 3600000))
    true.

Definition minute (m : t) (value : jsnum) : t :=
  updateOffset
    (set1 m value (fun mi => _d m / 3600000 * 3600000 + mi * 60000 + _d m mod 60000))
    false.

Definition second (m : t) (value : jsnum) : t :=
  updateOffset
    (set1 m value (fun s => _d m / 60000 * 60000 + s * 1000 + _d m mod 1000))
    false.

Definition millisecond (m : t) (value : jsnum) : t :=
  updateOffset
    (set1 m value (fun ms => _d m / 1000 * 1000 + ms))
    false.

(** [m.add(1, 'minute')]. *)
Definition add1minute (m : t) : t :=
  if isValid m then updateOffset (setTime m (_d m + 60000)) false else m.

(** Comparisons without unit: on the instants, false if either side is
    invalid. *)
Definition isBefore (a b : t) : bool :=
  isValid a && isValid b && (instant a <? instant b).

Definition isAfter (a b : t) : bool :=
  isValid a && isValid b && (instant b <? instant a).

Definition isSame (a b : t) : bool :=
  isValid a && isValid b && (instant a =? instant b).

Definition isSameOrBefore (a b : t) : bool := isSame a b || isBefore a b.

Definition isSameOrAfter (a b : t) : bool := isSame a b || isAfter a b.

(** [a.diff(b, 'minutes')]: the difference of the instants in minutes,
    truncated toward zero ([absFloor]); [NaN] if either side is invalid. *)
Definition diff (a b : t) : jsnum :=
  if isValid a && isValid b then Num (Z.quot (instant a - instant b) 60000)
  else NaN.

(** Civil date of a day count since 1970-01-01 (proleptic Gregorian). *)
Definition civil_from_days (days : Z) : Z * Z * Z :=
  let z := days + 719468 in
  let era := z / 146097 in
  let doe := z - era * 146097 in
  let yoe := (doe - doe / 1460 + doe / 36524 - doe / 146096) / 365 in
  let doy := doe - (365 * yoe + yoe / 4 - yoe / 100) in
  let mp := (5 * doy + 2) / 153 in
  let d := doy - (153 * mp + 2) / 5 + 1 in
  let mo := if mp <? 10 then mp + 3 else mp - 9 in
  let y := yoe + era * 400 + (if mo <=? 2 then 1 else 0) in
  (y, mo, d).

(** [m.toISOString()]: [null] for an invalid moment, else the UTC reading
    of the instant; years outside 0..9999 take the signed six-digit form. *)
Definition toISOString (m : t) : option string :=
  if isValid m then
    let ms := instant m in
    let '(y, mo, d) := civil_from_days (ms / 86400000) in
    let tod := ms mod 86400000 in
    let year :=
      if (y <? 0) || (9999 <? y)
      then (if y <? 0 then "-" else "+") ++ pad 6 (Z.abs y)
      else pad 4 y in
    Some (year ++ "-" ++ pad 2 mo ++ "-" ++ pad 2 d ++ "T"
          ++ pad 2 (tod / 3600000) ++ ":" ++ pad 2 (tod / 60000 mod 60) ++ ":"
          ++ pad 2 (tod / 1000 mod 60) ++ "." ++ pad 3 (tod mod 1000) ++ "Z")
  else None.

End Moment.

Import Moment.

(** ** Data model *)

(** The object returned by [calculateTimeMetrics]. *)
Record TimeMetrics := {
  totalWorkedHours : string;
  totalWorkedMinutes : jsnum;
  regularHours : string;
  regularMinutes : jsnum;
  overtimeHours : string;
  overtimeMinutes : jsnum;
  nightDiffHours : string;
  nightDiffMinutes : jsnum;
  lateMinutes : jsnum;
  undertimeMinutes : jsnum;
  punchInTime : option string;
  punchOutTime : option string;
  shiftStart : option string;
  shiftEnd : option string
}.

(** Field values of attendance records and of batch results. *)
Inductive value :=
| undefined
| null
| VString (s : string)
| VNumber (n : jsnum)
| VDate (time : option Z)        (* a Date; [None] is an Invalid Date *)
| VObject (metrics : TimeMetrics).

(** An attendance record is a JavaScript object; a field that is not
    there reads as [undefined]. *)
Abbreviation object := (gmap string value).

Definition get (o : object) (key : string) : value :=
  default undefined (o !! key).

(** [!v]. *)
Definition falsy (v : value) : bool :=
  match v with
  | undefined | null => true
  | VString s => String.eqb s ""
  | VNumber NaN | VNumber (Num 0) => true
  | _ => false
  end.

(** The schedule, with the fields typed as the Schedule interface has
    them; [None] is a field that is missing. *)
Record Schedule := {
  start : option string;
  end_ : option string;
  timezone : option string
}.

(** What the calculator takes from its runtime: [Number(s)] on a part of a
    time string (cut to an integer, as the setters do), moment's reading of
    a punch that is not a Date or a number (the epoch milliseconds, or
    [None] when moment cannot read it), and the time-zone database (for a
    name the database lacks, the offsets of the local zone, in which
    moment-timezone then leaves the moment). *)
Class Runtime := {
  Number : string -> jsnum;
  momentParse : value -> option Z;
  zoneOf : string -> Zone
}.

Section Calculator.

Context `{Runtime}.

(** [moment(input)]. *)
Definition moment (input : value) : Moment.t :=
  match input with
  | VDate time => ofInstant time
  | VNumber (Num ms) => ofInstant (Some ms)
  | VNumber NaN => ofInstant None
  | _ => ofInstant (momentParse input)
  end.

(** ** The calculator, function by function *)

Definition getScheduledTime (dateMoment : option Moment.t)
    (timeString : option string) (timezone : string) : completion Moment.t :=
  match timeString with
  | None => Throw (TypeError "Cannot read properties of undefined (reading 'split')")
  | Some timeString =>
      let parts := map Number (split ":" timeString) in
      let hours := nth_error parts 0 in
      let minutes := nth_error parts 1 in
      match dateMoment with
      | None => Throw (TypeError "Cannot read properties of undefined (reading 'clone')")
      | Some dateMoment =>
          match hours with
          | None => Throw (TypeError "dateMoment.clone(...).hour(...).minute is not a function")
          | Some hours =>
              match minutes with
              | None => Throw (TypeError "dateMoment.clone(...).hour(...).minute(...).second is not a function")
              | Some minutes =>
                  let scheduledTime :=
                    millisecond (second (minute (hour (clone dateMoment) hours) minutes)
                                        (Num 0)) (Num 0) in
                  Return scheduledTime
              end
          end
      end
  end.

Definition calculateLate (punchIn shiftStart : Moment.t) : jsnum :=
  if isSameOrBefore punchIn shiftStart then Num 0
  else diff punchIn shiftStart.

Definition calculateUndertime (punchOut shiftEnd : Moment.t) : jsnum :=
  if isSameOrAfter punchOut shiftEnd then Num 0
  else diff shiftEnd punchOut.

Definition calculateRegularHours (punchIn punchOut shiftStart shiftEnd : Moment.t)
    (scheduledMinutes : jsnum) : jsnum :=
  let effectiveStart := if isAfter punchIn shiftStart then punchIn else shiftStart in
  let effectiveEnd := if isBefore punchOut shiftEnd then punchOut else shiftEnd in
  if isSameOrBefore effectiveEnd effectiveStart then Num 0
  else
    let regularMinutes := diff effectiveEnd effectiveStart in
    Math_min regularMinutes scheduledMinutes.

Definition calculateOvertime (punchIn punchOut shiftEnd : Moment.t)
    (totalWorkedMinutes scheduledMinutes : jsnum) : jsnum :=
  if isSameOrBefore punchOut shiftEnd then Num 0
  else
    let overtimeMinutes := diff punchOut shiftEnd in
    overtimeMinutes.

(** The [while] loop of [calculateNightDifferential], run for at most
    [fuel] iterations; [None] when the bound is hit with the loop
    condition still true. *)
Fixpoint nightScan (fuel : nat) (currentTime endTime : Moment.t)
    (nightMinutes : jsnum) : option jsnum :=
  if isBefore currentTime endTime then
    match fuel with
    | O => None
    | S fuel' =>
        let hour := get_hour currentTime in
        let nightMinutes :=
          if ge hour (Num 22) || lt hour (Num 6) then incr nightMinutes
          else nightMinutes in
        nightScan fuel' (add1minute currentTime) endTime nightMinutes
    end
  else Some nightMinutes.

(** The number of one-minute steps from [a] that stay before [b]. *)
Definition steps (a b : Moment.t) : nat :=
  Z.to_nat ((instant b - instant a + 59999) / 60000).

Definition calculateNightDifferential (punchIn punchOut : Moment.t) : completion jsnum :=
  let nightMinutes := Num 0 in
  let currentTime := clone punchIn in
  let endTime := clone punchOut in
  match nightScan (steps currentTime endTime) currentTime endTime nightMinutes with
  | Some nightMinutes => Return nightMinutes
  | None => Diverge
  end.

Definition calculateTimeMetrics (attendance : object) (schedule : Schedule)
    : completion TimeMetrics :=
  let punchIn := get attendance "punchIn" in
  let punchOut := get attendance "punchOut" in
  let start := start schedule in
  let end_ := end_ schedule in
  let timezone := default "UTC" (timezone schedule) in
  if falsy punchIn || falsy punchOut then
    Throw (Error "Both punchIn and punchOut are required")
  else
    let punchInTime := tz zoneOf (moment punchIn) timezone in
    let punchOutTime := tz zoneOf (moment punchOut) timezone in
    bind (getScheduledTime punchInTime start timezone) (fun shiftStart =>
    bind (getScheduledTime punchInTime end_ timezone) (fun shiftEnd =>
    match punchInTime, punchOutTime with
    | Some punchInTime, Some punchOutTime =>
        let lateMinutes := calculateLate punchInTime shiftStart in
        let undertimeMinutes := calculateUndertime punchOutTime shiftEnd in
        let totalWorkedMinutes := diff punchOutTime punchInTime in
        let scheduledMinutes := diff shiftEnd shiftStart in
        let regularMinutes :=
          calculateRegularHours punchInTime punchOutTime shiftStart shiftEnd
            scheduledMinutes in
        let overtimeMinutes :=
          calculateOvertime punchInTime punchOutTime shiftEnd
            totalWorkedMinutes scheduledMinutes in
        bind (calculateNightDifferential punchInTime punchOutTime) (fun nightDiffMinutes =>
        Return {|
          totalWorkedHours := hoursFixed2 totalWorkedMinutes;
          totalWorkedMinutes := totalWorkedMinutes;
          regularHours := hoursFixed2 regularMinutes;
          regularMinutes := regularMinutes;
          overtimeHours := hoursFixed2 overtimeMinutes;
          overtimeMinutes := overtimeMinutes;
          nightDiffHours := hoursFixed2 nightDiffMinutes;
          nightDiffMinutes := nightDiffMinutes;
          lateMinutes := lateMinutes;
          undertimeMinutes := undertimeMinutes;
          punchInTime := toISOString punchInTime;
          punchOutTime := toISOString punchOutTime;
          shiftStart := toISOString shiftStart;
          shiftEnd := toISOString shiftEnd
        |})
    | _, _ =>
        (* an undefined [punchInTime] has made [getScheduledTime] throw
           above, and [punchOutTime] is undefined only when it is *)
        Throw (TypeError "Cannot read properties of undefined (reading 'isSameOrAfter')")
    end)).

(** [attendanceRecords.map(record => { try ... catch ... })]: the callback,
    then the map.  [{...record, metrics, calculationError}] copies the
    record and then writes the two fields. *)
Definition batchEntry (userSchedule : Schedule) (record : object) : completion object :=
  match calculateTimeMetrics record userSchedule with
  | Return metrics =>
      Return (<["calculationError" := null]> (<["metrics" := VObject metrics]> record))
  | Throw error =>
      Return (<["calculationError" := VString (message error)]>
                (<["metrics" := null]> record))
  | Diverge => Diverge
  end.

Fixpoint Array_map {A B} (f : A -> completion B) (l : list A) : completion (list B) :=
  match l with
  | [] => Return []
  | x :: rest =>
      bind (f x) (fun y => bind (Array_map f rest) (fun ys => Return (y :: ys)))
  end.

Definition batchCalculateTimeMetrics (attendanceRecords : list object)
    (userSchedule : Schedule) : completion (list object) :=
  Array_map (batchEntry userSchedule) attendanceRecords.

(** ** Names for what the properties speak about *)

(** The zone name in force: [schedule.timezone], or UTC by default. *)
Definition zoneName (schedule : Schedule) : string :=
  default "UTC" (timezone schedule).

(** The four moments that [calculateTimeMetrics] works out before any
    metric: both punches in the schedule's zone and the shift window on the
    punch-in's calendar day. *)
Record Resolved := {
  r_punchIn : Moment.t;
  r_punchOut : Moment.t;
  r_shiftStart : Moment.t;
  r_shiftEnd : Moment.t
}.

Definition resolve (attendance : object) (schedule : Schedule) : completion Resolved :=
  let punchIn := get attendance "punchIn" in
  let punchOut := get attendance "punchOut" in
  if falsy punchIn || falsy punchOut then
    Throw (Error "Both punchIn and punchOut are required")
  else
    let punchInTime := tz zoneOf (moment punchIn) (zoneName schedule) in
    let punchOutTime := tz zoneOf (moment punchOut) (zoneName schedule) in
    bind (getScheduledTime punchInTime (start schedule) (zoneName schedule)) (fun shiftStart =>
    bind (getScheduledTime punchInTime (end_ schedule) (zoneName schedule)) (fun shiftEnd =>
    match punchInTime, punchOutTime with
    | Some punchInTime, Some punchOutTime =>
        Return {| r_punchIn := punchInTime; r_punchOut := punchOutTime;
                  r_shiftStart := shiftStart; r_shiftEnd := shiftEnd |}
    | _, _ =>
        Throw (TypeError "Cannot read properties of undefined (reading 'isSameOrAfter')")
    end)).

(** [scheduledMinutes]: the length of the resolved shift window. *)
Definition scheduledMinutes (r : Resolved) : jsnum :=
  diff (r_shiftEnd r) (r_shiftStart r).


(** A time of day in the HH:MM form has an hours and a minutes part. *)
Definition timeOfDay (s : string) : bool :=
  match split ":" s with _ :: _ :: _ => true | _ => false end.


(** The local clock hour that [zone] shows at instant [t]. *)
Definition localHour (zone : Zone) (t : Z) : Z :=
  (t + zone t * 60000) / 3600000 mod 24.

(** The nightly window: hour at least 22 or below 6. *)
Definition nightHour (h : Z) : bool := (22 <=? h) || (h <? 6).

Definition nightAt (zone : Zone) (t : Z) : bool := nightHour (localHour zone t).

(** The started minutes of a punch interval: the instants [a],
    [a] + 1 min, ... that lie in [[a, b)].  The last of them starts a
    minute that is still under way at [b] when the length of the interval
    is not a whole number of minutes. *)
Definition minuteMarks (a b : Z) : list Z :=
  (fun k => a + k * 60000) <$> seqZ 0 ((b - a + 59999) / 60000).

(** The started minutes of [[punchIn, punchOut)] whose local clock hour
    is at least 22 or below 6. *)
Definition nightMinuteCount (zone : Zone) (punchIn punchOut : Z) : Z :=
  Z.of_nat (length (filter (fun t => nightAt zone t = true) (minuteMarks punchIn punchOut))).

(** The count in the words of the specification: the whole minutes of
    [[punchIn, punchOut)], that is the minutes from punchIn that have
    wholly passed at punchOut, whose local clock hour (at their start) is
    at least 22 or below 6. *)
Definition wholeMinuteMarks (a b : Z) : list Z :=
  (fun k => a + k * 60000) <$> seqZ 0 ((b - a) / 60000).

Definition wholeNightMinutes (zone : Zone) (punchIn punchOut : Z) : Z :=
  Z.of_nat (length (filter (fun t => nightAt zone t = true)
                      (wholeMinuteMarks punchIn punchOut))).

(** The interval from [a] to [b] stays inside the range of Date in the
    zone: every instant of it, read at any offset that the zone has over
    it, is a time that a Date can hold.  (It fails only within a zone
    offset of the limits of the range, in the years -271821 and 275760.) *)
Definition withinDateRange (zone : Zone) (a b : Z) : Prop :=
  forall t s, a <= t <= b -> a <= s <= b -> inRange (t + zone s * 60000) = true.


(** A zone whose offset changes on whole minutes only. *)
Definition minuteAligned (zone : Zone) : Prop :=
  forall t, zone t = zone (t / 60000 * 60000).

(** The instant that moment reads from a punch, if it reads one. *)
Definition punchInstant (attendance : object) (key : string) : option Z :=
  let m := moment (get attendance key) in
  if isValid m then Some (instant m) else None.

(** A moment whose offset is the one its zone gives at its instant. *)
Definition consistent (m : Moment.t) : Prop := _offset m = _z m (instant m).

(** The night minutes among the [count] whole minutes that start with
    minute number [first] (minutes numbered from the epoch). *)
Definition nightMinutesFrom (zone : Zone) (first count : Z) : Z :=
  Z.of_nat (length (filter (fun m => nightAt zone (m * 60000) = true) (seqZ first count))).

(** What one entry of the result is, given the record it comes from. *)
Definition entryOf (userSchedule : Schedule) (record entry : object) : Prop :=
  (exists metrics,
      calculateTimeMetrics record userSchedule = Return metrics
      /\ entry = <["calculationError" := null]> (<["metrics" := VObject metrics]> record))
  \/ (exists error,
         calculateTimeMetrics record userSchedule = Throw error
         /\ entry = <["calculationError" := VString (message error)]>
                      (<["metrics" := null]> record)).

(** A time field that is there and has the HH:MM form. *)
Definition hasTime (timeString : option string) : bool :=
  match timeString with Some s => timeOfDay s | None => false end.

End Calculator.

(** ** A reference runtime

    Enough of the runtime to run the calculator on the scenarios of the
    specification: [Number] on strings of decimal digits, moment's reading
    of ISO-8601 date-times with a designator (Z or a numeric offset), and
    the two zones of the scenarios. *)

Module Reference.

Definition digit (c : ascii) : option Z :=
  let n := Z.of_nat (nat_of_ascii c) in
  if (48 <=? n) && (n <=? 57) then Some (n - 48) else None.

Fixpoint number_aux (s : string) (acc : Z) : option Z :=
  match s with
  | EmptyString => Some acc
  | String c rest =>
      match digit c with
      | Some v => number_aux rest (10 * acc + v)
      | None => None
      end
  end.

(** [Number(s)] for the strings of the scenarios: the empty string and
    strings of decimal digits.  It is a stand-in: every other string is
    read as [NaN] here, where [Number] itself also reads signs, fractions,
    exponents and surrounding blanks. *)
Definition decimalNumber (s : string) : jsnum :=
  match number_aux s 0 with Some v => Num v | None => NaN end.

(** Days since 1970-01-01 of a civil date (proleptic Gregorian). *)
Definition days_from_civil (y mo d : Z) : Z :=
  let y := if mo <=? 2 then y - 1 else y in
  let era := y / 400 in
  let yoe := y - era * 400 in
  let doy := (153 * (if 2 <? mo then mo - 3 else mo + 9) + 2) / 5 + d - 1 in
  let doe := yoe * 365 + yoe / 4 - yoe / 100 + doy in
  era * 146097 + doe - 719468.

(** Epoch milliseconds of the wall-clock reading [y-mo-d h:mi:s.ms] taken
    [offset] minutes east of UTC. *)
Definition instantOf (y mo d h mi s ms offset : Z) : Z :=
  days_from_civil y mo d * 86400000 + h * 3600000 + mi * 60000 + s * 1000 + ms
  - offset * 60000.

Definition field (s : string) (pos len : nat) : option Z :=
  let part := substring pos len s in
  if Nat.eqb (String.length part) len then number_aux part 0 else None.

Definition literal (s : string) (pos : nat) (expected : string) : option unit :=
  if String.eqb (substring pos (String.length expected) s) expected
  then Some tt else None.

(** The designator that starts at [pos] and ends the string. *)
Definition designator (s : string) (pos : nat) : option Z :=
  let rest := substring pos (String.length s - pos) s in
  if String.eqb rest "Z" then Some 0
  else
    if Nat.eqb (String.length rest) 6 then
      _ ← literal rest 3 ":";
      oh ← field rest 1 2;
      om ← field rest 4 2;
      if String.eqb (substring 0 1 rest) "+" then Some (oh * 60 + om)
      else if String.eqb (substring 0 1 rest) "-" then Some (- (oh * 60 + om))
      else None
    else None.

(** [YYYY-MM-DDTHH:mm:ss], an optional [.SSS], then the designator. *)
Definition iso8601 (s : string) : option Z :=
  y ← field s 0 4;
  _ ← literal s 4 "-";
  mo ← field s 5 2;
  _ ← literal s 7 "-";
  d ← field s 8 2;
  _ ← literal s 10 "T";
  h ← field s 11 2;
  _ ← literal s 13 ":";
  mi ← field s 14 2;
  _ ← literal s 16 ":";
  sec ← field s 17 2;
  match literal s 19 "." with
  | Some _ =>
      ms ← field s 20 3;
      offset ← designator s 23;
      Some (instantOf y mo d h mi sec ms offset)
  | None =>
      offset ← designator s 19;
      Some (instantOf y mo d h mi sec 0 offset)
  end.

(** moment's reading of a punch that is a string, for the strings of the
    scenarios.  It is a stand-in: moment reads more forms than this one. *)
Definition parseISO (input : value) : option Z :=
  match input with
  | VString s => iso8601 s
  | _ => None
  end.

(** Asia/Manila is eight hours east of UTC (no daylight saving in force
    since 1990); UTC, and here every other name, has offset zero. *)
Definition zoneTable (name : string) : Zone :=
  if String.eqb name "Asia/Manila" then fixedZone 480 else fixedZone 0.

#[export] Instance runtime : Runtime :=
  {| Number := decimalNumber;
     momentParse := parseISO;
     zoneOf := zoneTable |}.

End Reference.


(** ** Inputs of the scenarios *)

Definition punches (punchIn punchOut : value) : object :=
  <["punchOut" := punchOut]> (<["punchIn" := punchIn]> ∅).

(** The day shift of the specification's scenarios. *)
Definition daySchedule : Schedule :=
  {| start := Some "09:00"; end_ := Some "18:00"; timezone := Some "Asia/Manila" |}.

(** A night shift: it ends, on the clock, before it starts. *)
Definition nightSchedule : Schedule :=
  {| start := Some "22:00"; end_ := Some "06:00"; timezone := Some "Asia/Manila" |}.

Definition dayPunches : object :=
  punches (VString "2025-10-01T09:15:00+08:00") (VString "2025-10-01T19:30:00+08:00").

Definition overnightPunches : object :=
  punches (VString "2025-10-01T21:00:00+08:00") (VString "2025-10-02T07:00:00+08:00").

(** Punch-out half an hour before punch-in. *)
Definition invertedPunches : object :=
  punches (VString "2025-10-01T10:00:00+08:00") (VString "2025-10-01T09:30:00+08:00").

(** A night shift worked to the minute. *)
Definition nightShiftPunches : object :=
  punches (VString "2025-10-01T22:00:00+08:00") (VString "2025-10-02T06:00:00+08:00").

(** A day shift covered with margin on both sides. *)
Definition fullDayPunches : object :=
  punches (VString "2025-10-01T08:45:00+08:00") (VString "2025-10-01T18:20:00+08:00").

(** A record whose punch-out has not been made. *)
Definition openPunch : object :=
  <["punchIn" := VString "2025-10-01T09:15:00+08:00"]> ∅.


(** A batch of three records, the second without punch-out. *)
Definition threeRecords : list object := [dayPunches; openPunch; overnightPunches].

(** A stored time entry that already carries metrics. *)
Definition staleMetrics : TimeMetrics :=
  {| totalWorkedHours := "0.00"; totalWorkedMinutes := Num 0;
     regularHours := "0.00"; regularMinutes := Num 0;
     overtimeHours := "0.00"; overtimeMinutes := Num 0;
     nightDiffHours := "0.00"; nightDiffMinutes := Num 0;
     lateMinutes := Num 0; undertimeMinutes := Num 0;
     punchInTime := None; punchOutTime := None;
     shiftStart := None; shiftEnd := None |}.

Definition storedEntry : object :=
  <["metrics" := VObject staleMetrics]> (<["id" := VString "entry-1"]> dayPunches).

(** Punches in the night, from 23:00 to 05:00, and the same extended on
    both sides within the nightly window, from 22:30 to 05:30. *)
Definition lateNightPunches : object :=
  punches (VString "2025-10-01T23:00:00+08:00") (VString "2025-10-02T05:00:00+08:00").

Definition widerNightPunches : object :=
  punches (VString "2025-10-01T22:30:00+08:00") (VString "2025-10-02T05:30:00+08:00").

(** Thirty seconds and a half of work in the night. *)
Definition halfMinutePunches : object :=
  punches (VString "2025-10-01T22:15:00+08:00")
          (VString "2025-10-01T22:15:30.500+08:00").

(** Two punches, as epoch milliseconds, nine and seven hours before the
    end of the range of Date: 23:00 and 01:00 on the clock of Manila,
    where the second is a reading that a Date cannot hold. *)
Definition dateLimitPunches : object :=
  punches (VNumber (Num (maxTime - 9 * 3600000)))
          (VNumber (Num (maxTime - 7 * 3600000))).

(** A zone (of no time-zone database) whose offset changes within the
    minute: twelve hours east of UTC except on the whole minutes and
    before the epoch. *)
Definition unalignedZone : Zone :=
  fun t => if (t mod 60000 =? 0) || (t <? 0) then 0 else 720.




(** ** The HTTP endpoints (backend/server.js, functions/index.cjs)

    A request is modelled by its parsed JSON body, a response by its status
    code and its body; [res.json] without [res.status] answers 200.  The
    logging of the handlers is left out. *)

Inductive ResponseBody :=
| ErrorBody (error : string)                 (* [{ error }] *)
| MetricsBody (data : TimeMetrics)           (* [{ success: true, data }] *)
| BatchBody (data : list object).            (* [{ success: true, data }] *)

Record Response := { status : Z; body : ResponseBody }.


(** The body of [POST /api/calculate-time-batch]; for the records, [None]
    is a field that is missing or is not an array. *)
Record CalculateBatchBody := {
  body_attendanceRecords : option (list object);
  batch_schedule : option Schedule
}.

(** [!schedule.start]: the field is missing or the empty string. *)
Definition falsyString (s : option string) : bool :=
  match s with None => true | Some s => String.eqb s "" end.

Section Endpoints.

Context `{Runtime}.


Definition calculateBatchHandler (req : CalculateBatchBody) : completion Response :=
  match body_attendanceRecords req with
  | None =>
      Return {| status := 400; body := ErrorBody "attendanceRecords must be an array" |}
  | Some attendanceRecords =>
      match batch_schedule req with
      | None =>
          Return {| status := 400;
                    body := ErrorBody "Missing schedule information: start and end times are required" |}
      | Some schedule =>
          if falsyString (start schedule) || falsyString (end_ schedule) then
            Return {| status := 400;
                      body := ErrorBody "Missing schedule information: start and end times are required" |}
          else
            match batchCalculateTimeMetrics attendanceRecords schedule with
            | Return results => Return {| status := 200; body := BatchBody results |}
            | Throw error => Return {| status := 500; body := ErrorBody (message error) |}
            | Diverge => Diverge
            end
      end
  end.


End Endpoints.

(** ** Durations on display (formatDuration)

    Seconds are whole numbers here (the callers count elapsed seconds),
    and the model is that of the integers that a JavaScript number holds
    exactly: up to [MAX_SAFE_INTEGER] the quotients below are the ones
    JavaScript computes and a number prints with all its digits. *)

(** [Number.MAX_SAFE_INTEGER], 2^53 - 1. *)
Definition MAX_SAFE_INTEGER : Z := 9007199254740991.

(** [n.toString()] for an integer of at most [MAX_SAFE_INTEGER] in absolute
    value: its decimal digits.  (Above it JavaScript rounds to 17
    significant digits, and from 1e21 on it prints the exponent form; the
    definition does not follow it there.) *)
Definition Number_toString (n : Z) : string :=
  if n <? 0 then String "-" (digits (- n)) else digits n.

(** [s.padStart(targetLength, "0")]. *)
Definition padStart0 (targetLength : nat) (s : string) : string :=
  zeros (targetLength - String.length s) ++ s.

Definition formatDuration (seconds : Z) : string :=
  let hours := seconds / 3600 in                 (* Math.floor(seconds / 3600) *)
  let minutes := Z.rem seconds 3600 / 60 in      (* Math.floor((seconds % 3600) / 60) *)
  let secs := Z.rem seconds 60 in                (* seconds % 60 *)
  padStart0 2 (Number_toString hours) ++ ":"
  ++ padStart0 2 (Number_toString minutes) ++ ":"
  ++ padStart0 2 (Number_toString secs).

(** Reading a displayed duration back: three colon-separated decimal
    numbers, as hours, minutes and seconds. *)
Definition readDuration (s : string) : option Z :=
  match split ":" s with
  | [h; m; sec] =>
      h ← Reference.number_aux h 0;
      m ← Reference.number_aux m 0;
      sec ← Reference.number_aux sec 0;
      Some (h * 3600 + m * 60 + sec)
  | _ => None
  end.

(** Strings made of decimal digits only. *)
Fixpoint allDigits (s : string) : bool :=
  match s with
  | EmptyString => true
  | String c rest =>
      match Reference.digit c with Some _ => allDigits rest | None => false end
  end.

(** ** Names used by the further properties *)

(** Whether minute [x] of the local clock, counted from a local midnight,
    is in the nightly window. *)
Definition nightMinuteOfDay (x : Z) : bool := nightHour (x / 60 mod 24).

(** The night minutes among the 1440 minutes from local minute [s] on. *)
Definition nightMinutesOfDayFrom (s : Z) : Z :=
  Z.of_nat (length (filter (fun x => nightMinuteOfDay x = true) (seqZ s 1440))).

(** A punch pair that lasts 24 hours. *)
Definition wholeDayPunches : object :=
  punches (VString "2025-10-01T14:37:12+08:00") (VString "2025-10-02T14:37:12+08:00").

(** The moment of 2025-10-01T09:15:37.250+08:00 in a zone eight hours east. *)
Definition manilaMorning : Moment.t :=
  {| isValid := true; _d := 1759281337250 + 480 * 60000; _offset := 480;
     _z := fixedZone 480 |}.



(** A punch pair inside the day shift, with seconds on both punches. *)
Definition insideShiftPunches : object :=
  punches (VString "2025-10-01T09:40:30+08:00") (VString "2025-10-01T17:20:45+08:00").

(** The overnight punches cut in two at 23:30. *)
Definition eveningPunches : object :=
  punches (VString "2025-10-01T21:00:00+08:00") (VString "2025-10-01T23:30:00+08:00").

Definition afterEveningPunches : object :=
  punches (VString "2025-10-01T23:30:00+08:00") (VString "2025-10-02T07:00:00+08:00").

(** * Properties *)

(** ** The runtime at work *)

Example split_time : split ":" "09:00" = ["09"; "00"].
Proof. reflexivity. Qed.

Example split_colonless : split ":" "0900" = ["0900"].
Proof. reflexivity. Qed.

Example hours_of_525 : hoursFixed2 (Num 525) = "8.75".
Proof. reflexivity. Qed.

Example hours_of_minus_30 : hoursFixed2 (Num (-30)) = "-0.50".
Proof. reflexivity. Qed.

Example iso8601_reads_offset :
  Reference.iso8601 "2025-10-01T09:15:00+08:00" = Some 1759281300000.
Proof. reflexivity. Qed.

Example toISOString_of_punch :
  toISOString (ofInstant (Some 1759281300000)) = Some "2025-10-01T01:15:00.000Z".
Proof. reflexivity. Qed.

(** ** Comparisons and differences of moments *)

Lemma isBefore_true a b :
  isBefore a b = true <-> isValid a = true /\ isValid b = true /\ instant a < instant b.
Proof.
  unfold isBefore. rewrite !andb_true_iff, Z.ltb_lt. tauto.
Qed.

Lemma isAfter_true a b :
  isAfter a b = true <-> isValid a = true /\ isValid b = true /\ instant b < instant a.
Proof.
  unfold isAfter. rewrite !andb_true_iff, Z.ltb_lt. tauto.
Qed.

Lemma isSameOrBefore_true a b :
  isSameOrBefore a b = true <->
  isValid a = true /\ isValid b = true /\ instant a <= instant b.
Proof.
  unfold isSameOrBefore, isSame, isBefore.
  rewrite orb_true_iff, !andb_true_iff, Z.ltb_lt, Z.eqb_eq.
  destruct (Z.eq_dec (instant a) (instant b)); intuition lia.
Qed.

Lemma isSameOrAfter_true a b :
  isSameOrAfter a b = true <->
  isValid a = true /\ isValid b = true /\ instant b <= instant a.
Proof.
  unfold isSameOrAfter, isSame, isAfter.
  rewrite orb_true_iff, !andb_true_iff, Z.ltb_lt, Z.eqb_eq.
  destruct (Z.eq_dec (instant a) (instant b)); intuition lia.
Qed.

Lemma diff_valid a b :
  isValid a = true -> isValid b = true ->
  diff a b = Num (Z.quot (instant a - instant b) 60000).
Proof. intros Ha Hb. unfold diff. now rewrite Ha, Hb. Qed.

Lemma inRange_true time : inRange time = true <-> - maxTime <= time <= maxTime.
Proof. unfold inRange. rewrite andb_true_iff, !Z.leb_le. tauto. Qed.

(** A valid result of [updateOffset] comes from a valid moment and, when
    the local time is not kept, denotes the same instant at the offset that
    the zone gives there. *)
Lemma updateOffset_instant m keepTime :
  (isValid (updateOffset m keepTime) = true -> isValid m = true)
  /\ (keepTime = false -> isValid (updateOffset m keepTime) = true ->
      instant (updateOffset m keepTime) = instant m
      /\ _offset (updateOffset m keepTime) = _z m (instant m))
  /\ _z (updateOffset m keepTime) = _z m.
Proof.
  unfold updateOffset, utcOffset, utcOffsetInProgress.
  destruct (isValid m) eqn:Hv; [| now rewrite Hv].
  destruct keepTime;
    repeat match goal with
           | |- context [?x =? ?y] => destruct (Z.eqb_spec x y)
           end; unfold instant, setTime, with_offset in *; simpl in *;
    repeat split; auto; intros; try discriminate; try lia; congruence.
Qed.


(** ... and the result is valid when the local reading of the instant at
    the zone's offset is a time that a Date can hold. *)
Lemma updateOffset_valid m :
  isValid m = true ->
  inRange (instant m + _z m (instant m) * 60000) = true ->
  isValid (updateOffset m false) = true.
Proof.
  intros Hv Hr. unfold updateOffset, utcOffset. rewrite Hv.
  destruct (Z.eqb_spec (_offset m) (_z m (instant m))); simpl; [exact Hv |].
  rewrite Hv. simpl. rewrite <- Hr. f_equal. unfold instant. lia.
Qed.


Lemma clone_instant m :
  (isValid (clone m) = true ->
   isValid m = true /\ instant (clone m) = instant m)
  /\ _z (clone m) = _z m.
Proof.
  unfold clone. destruct (updateOffset_instant m false) as (Hv & Hi & Hz).
  split; [| exact Hz].
  intros Hc. split; [auto |]. now apply Hi.
Qed.

Lemma isBefore_clone a b :
  isBefore (clone a) (clone b) = true -> isBefore a b = true.
Proof.
  rewrite !isBefore_true. intros (Ha & Hb & Hlt).
  destruct (clone_instant a) as (Hia & _). destruct (clone_instant b) as (Hib & _).
  destruct (Hia Ha) as (-> & <-). destruct (Hib Hb) as (-> & <-). auto.
Qed.

(** A moment whose offset is the one of its zone is its own clone. *)
Lemma clone_consistent m : consistent m -> clone m = m.
Proof.
  unfold consistent, clone, updateOffset, utcOffset. intros Hc.
  destruct (isValid m); [| reflexivity].
  rewrite <- Hc, Z.eqb_refl. destruct m; reflexivity.
Qed.

Lemma quot_minutes_nonneg x : 0 <= x -> 0 <= Z.quot x 60000.
Proof. intros. apply Z.quot_pos; lia. Qed.

Lemma quot_minutes_le x y : 0 <= x <= y -> Z.quot x 60000 <= Z.quot y 60000.
Proof. intros. apply Z.quot_le_mono; lia. Qed.

Lemma quot_minutes_add x y :
  0 <= x -> 0 <= y -> Z.quot x 60000 + Z.quot y 60000 <= Z.quot (x + y) 60000.
Proof.
  intros Hx Hy. rewrite !Z.quot_div_nonneg by lia.
  pose proof (Z.div_mod x 60000 ltac:(lia)).
  pose proof (Z.div_mod y 60000 ltac:(lia)).
  pose proof (Z.mod_pos_bound x 60000 ltac:(lia)).
  pose proof (Z.mod_pos_bound y 60000 ltac:(lia)).
  apply Z.div_le_lower_bound; lia.
Qed.

(** ** The night scan comes to its end *)

Lemma add1minute_instant m :
  (isValid (add1minute m) = true ->
   isValid m = true /\ instant (add1minute m) = instant m + 60000
   /\ _offset (add1minute m) = _z m (instant m + 60000))
  /\ _z (add1minute m) = _z m.
Proof.
  unfold add1minute. destruct (isValid m) eqn:Hv.
  - destruct (updateOffset_instant (setTime m (_d m + 60000)) false) as (_ & Hi & Hz).
    split; [| exact Hz].
    intros Hr. destruct (Hi eq_refl Hr) as (Hinst & Hoff).
    split; [reflexivity |]. rewrite Hinst, Hoff.
    unfold instant, setTime. simpl. split; [lia | f_equal; lia].
  - split; [congruence | reflexivity].
Qed.

(** The minute added is kept when the local readings it passes through
    are times that a Date can hold. *)
Lemma add1minute_valid m :
  isValid m = true ->
  inRange (_d m + 60000) = true ->
  inRange (instant m + 60000 + _z m (instant m + 60000) * 60000) = true ->
  isValid (add1minute m) = true.
Proof.
  intros Hv Hd Hr. unfold add1minute. rewrite Hv.
  apply updateOffset_valid.
  - unfold setTime. simpl. now rewrite Hv, Hd.
  - rewrite <- Hr. unfold instant, setTime. simpl. do 2 f_equal; [lia |].
    do 2 f_equal. lia.
Qed.

Lemma steps_next cur stop fuel :
  instant cur < instant stop ->
  (instant stop - instant cur + 59999) / 60000 <= Z.of_nat (S fuel) ->
  (instant stop - (instant cur + 60000) + 59999) / 60000 <= Z.of_nat fuel.
Proof.
  intros Hlt Hle.
  replace (instant stop - (instant cur + 60000) + 59999)
    with (instant stop - instant cur + 59999 + (-1) * 60000) by lia.
  rewrite Z.div_add by lia. lia.
Qed.

Lemma steps_enough a b :
  (instant b - instant a + 59999) / 60000 <= Z.of_nat (steps a b).
Proof.
  unfold steps.
  destruct (Z.le_gt_cases 0 ((instant b - instant a + 59999) / 60000)).
  - rewrite Z2Nat.id by assumption. lia.
  - lia.
Qed.

Lemma nightScan_terminates fuel : forall cur stop acc,
  (isBefore cur stop = true ->
   (instant stop - instant cur + 59999) / 60000 <= Z.of_nat fuel) ->
  exists n, nightScan fuel cur stop (Num acc) = Some (Num n) /\ acc <= n.
Proof.
  induction fuel as [| fuel IH]; intros cur stop acc Hfuel; simpl.
  - destruct (isBefore cur stop) eqn:Hb.
    + specialize (Hfuel eq_refl).
      apply isBefore_true in Hb as (_ & _ & Hlt).
      assert (1 <= (instant stop - instant cur + 59999) / 60000)
        by (apply Z.div_le_lower_bound; lia).
      lia.
    + exists acc. split; [reflexivity | lia].
  - destruct (isBefore cur stop) eqn:Hb.
    + specialize (Hfuel eq_refl).
      apply isBefore_true in Hb as (Hv & _ & Hlt).
      assert (Hnext : isBefore (add1minute cur) stop = true ->
                      (instant stop - instant (add1minute cur) + 59999) / 60000
                      <= Z.of_nat fuel).
      { intros Hb'. apply isBefore_true in Hb' as (Hv' & _ & _).
        destruct (add1minute_instant cur) as (Hi & _).
        destruct (Hi Hv') as (_ & -> & _). now apply steps_next. }
      destruct (ge (get_hour cur) (Num 22) || lt (get_hour cur) (Num 6)); simpl.
      * destruct (IH (add1minute cur) stop (acc + 1) Hnext) as (n & Hn & Hle).
        exists n. split; [exact Hn | lia].
      * destruct (IH (add1minute cur) stop acc Hnext) as (n & Hn & Hle).
        exists n. split; [exact Hn | lia].
    + exists acc. split; [reflexivity | lia].
Qed.

Lemma calculateNightDifferential_returns punchIn punchOut :
  exists n, calculateNightDifferential punchIn punchOut = Return (Num n) /\ 0 <= n.
Proof.
  unfold calculateNightDifferential. cbv zeta.
  destruct (nightScan_terminates (steps (clone punchIn) (clone punchOut))
              (clone punchIn) (clone punchOut) 0) as (n & Hn & Hle).
  - intros _. apply steps_enough.
  - exists n. rewrite Hn. split; [reflexivity | assumption].
Qed.

(** ** [calculateTimeMetrics] in terms of the resolved moments *)

Section Resolved.

Context `{Runtime}.

Lemma calculateTimeMetrics_fields attendance schedule r :
  resolve attendance schedule = Return r ->
  exists m,
    calculateTimeMetrics attendance schedule = Return m
    /\ lateMinutes m = calculateLate (r_punchIn r) (r_shiftStart r)
    /\ undertimeMinutes m = calculateUndertime (r_punchOut r) (r_shiftEnd r)
    /\ totalWorkedMinutes m = diff (r_punchOut r) (r_punchIn r)
    /\ regularMinutes m =
         calculateRegularHours (r_punchIn r) (r_punchOut r) (r_shiftStart r)
           (r_shiftEnd r) (scheduledMinutes r)
    /\ overtimeMinutes m =
         calculateOvertime (r_punchIn r) (r_punchOut r) (r_shiftEnd r)
           (diff (r_punchOut r) (r_punchIn r)) (scheduledMinutes r)
    /\ calculateNightDifferential (r_punchIn r) (r_punchOut r)
       = Return (nightDiffMinutes m).
Proof.
  unfold resolve, calculateTimeMetrics, zoneName. intros Hr.
  destruct (falsy (get attendance "punchIn") || falsy (get attendance "punchOut"));
    [discriminate |].
  destruct (getScheduledTime _ (start schedule) _) as [ss | |]; simpl in *; try discriminate.
  destruct (getScheduledTime _ (end_ schedule) _) as [se | |]; simpl in *; try discriminate.
  destruct (tz zoneOf (moment (get attendance "punchIn")) _) as [pin |]; try discriminate.
  destruct (tz zoneOf (moment (get attendance "punchOut")) _) as [pout |]; try discriminate.
  injection Hr as <-. simpl.
  destruct (calculateNightDifferential_returns pin pout) as (n & Hn & _).
  rewrite Hn. simpl. eexists. split; [reflexivity |]. simpl.
  repeat split; auto.
Qed.

Lemma calculateTimeMetrics_throws attendance schedule e :
  resolve attendance schedule = Throw e ->
  calculateTimeMetrics attendance schedule = Throw e.
Proof.
  unfold resolve, calculateTimeMetrics, zoneName. intros Hr.
  destruct (falsy (get attendance "punchIn") || falsy (get attendance "punchOut"));
    [congruence |].
  destruct (getScheduledTime _ (start schedule) _) as [ss | |]; simpl in *;
    try congruence.
  destruct (getScheduledTime _ (end_ schedule) _) as [se | |]; simpl in *;
    try congruence.
  destruct (tz zoneOf (moment (get attendance "punchIn")) _) as [pin |];
    try congruence.
  destruct (tz zoneOf (moment (get attendance "punchOut")) _) as [pout |];
    congruence.
Qed.

Lemma getScheduledTime_no_diverge dateMoment timeString zone :
  getScheduledTime dateMoment timeString zone <> Diverge.
Proof.
  unfold getScheduledTime.
  destruct timeString; [| discriminate].
  destruct dateMoment; [| discriminate].
  destruct (nth_error _ 0); [| discriminate].
  destruct (nth_error _ 1); discriminate.
Qed.

Lemma resolve_no_diverge attendance schedule :
  resolve attendance schedule <> Diverge.
Proof.
  unfold resolve.
  destruct (falsy (get attendance "punchIn") || falsy (get attendance "punchOut"));
    [discriminate |].
  destruct (getScheduledTime _ (start schedule) _) as [ss | |] eqn:Hs; simpl;
    [| discriminate | now apply getScheduledTime_no_diverge in Hs].
  destruct (getScheduledTime _ (end_ schedule) _) as [se | |] eqn:He; simpl;
    [| discriminate | now apply getScheduledTime_no_diverge in He].
  destruct (tz zoneOf (moment (get attendance "punchIn")) _); [| discriminate].
  destruct (tz zoneOf (moment (get attendance "punchOut")) _); discriminate.
Qed.

(** Every call returns a record of metrics or throws. *)
Lemma calculateTimeMetrics_total attendance schedule :
  (exists m, calculateTimeMetrics attendance schedule = Return m)
  \/ (exists e, calculateTimeMetrics attendance schedule = Throw e).
Proof.
  destruct (resolve attendance schedule) as [r | e |] eqn:Hr.
  - left. destruct (calculateTimeMetrics_fields _ _ _ Hr) as (m & Hm & _). eauto.
  - right. exists e. now apply calculateTimeMetrics_throws.
  - now apply resolve_no_diverge in Hr.
Qed.

End Resolved.

(** ** The two scenarios *)

(** C1, as stated, fails: on the day-shift scenario the calculator does not
    return 625 worked minutes. *)
Lemma day_scenario_total_not_625 :
  exists m,
    calculateTimeMetrics (H := Reference.runtime) dayPunches daySchedule = Return m
    /\ totalWorkedMinutes m <> Num 625.
Proof. eexists. split; [vm_compute; reflexivity |]. simpl. discriminate. Qed.

(** C1, amended: for the 09:00-18:00 Asia/Manila schedule and the punches
    09:15 and 19:30 of 2025-10-01 (+08:00), the calculator returns 615
    worked minutes ("10.25"), 525 regular minutes ("8.75"), 90 overtime
    minutes ("1.50"), no night differential, 15 minutes late and no
    undertime. *)
Theorem day_scenario_metrics :
  exists m,
    calculateTimeMetrics (H := Reference.runtime) dayPunches daySchedule = Return m
    /\ totalWorkedMinutes m = Num 615 /\ totalWorkedHours m = "10.25"
    /\ regularMinutes m = Num 525 /\ regularHours m = "8.75"
    /\ overtimeMinutes m = Num 90 /\ overtimeHours m = "1.50"
    /\ nightDiffMinutes m = Num 0
    /\ lateMinutes m = Num 15
    /\ undertimeMinutes m = Num 0.
Proof. eexists. split; [vm_compute; reflexivity |]. simpl. repeat split. Qed.

(** C2, at its scenario: for the 09:00-18:00 Asia/Manila schedule and the
    punches 21:00 of 2025-10-01 and 07:00 of 2025-10-02 (+08:00), the
    calculator returns 480 night-differential minutes (the minutes of the
    interval with a local hour of 22 or more or below 6), no regular
    minutes and 720 minutes late, as the claim has them, but 780 overtime
    minutes where the claim has 600: the whole time from the shift end at
    18:00 to the punch-out, three hours of it before the punch-in, is
    counted, and the overtime exceeds the 600 minutes worked. *)
Theorem overnight_scenario_metrics :
  exists m,
    calculateTimeMetrics (H := Reference.runtime) overnightPunches daySchedule = Return m
    /\ nightDiffMinutes m = Num 480
    /\ nightMinuteCount (fixedZone 480)
         (Reference.instantOf 2025 10 1 21 0 0 0 480)
         (Reference.instantOf 2025 10 2 7 0 0 0 480) = 480
    /\ overtimeMinutes m = Num 780 /\ overtimeMinutes m <> Num 600
    /\ totalWorkedMinutes m = Num 600
    /\ regularMinutes m = Num 0
    /\ lateMinutes m = Num 720.
Proof.
  eexists. split; [vm_compute; reflexivity |]. simpl.
  split; [reflexivity |]. split; [vm_compute; reflexivity |].
  split; [reflexivity |]. split; [discriminate |]. repeat split.
Qed.

(** ** Regular time, overtime and the time worked *)

(** Rewrites with the validity facts at hand and splits the comparisons
    of instants that the goal tests. *)
Ltac by_instants :=
  repeat (simpl;
          first
            [ match goal with
              | Hv : isValid ?m = true |- context [isValid ?m] => rewrite Hv
              end
            | match goal with
              | |- context [?x <? ?y] => destruct (Z.ltb_spec x y)
              | |- context [?x =? ?y] => destruct (Z.eqb_spec x y)
              | |- context [?x <=? ?y] => destruct (Z.leb_spec x y)
              end ]).

(** On valid moments the metrics are interval arithmetic on the instants
    ([m / 60000] below is the quotient truncated toward zero). *)

Lemma calculateLate_valid punchIn shiftStart :
  isValid punchIn = true -> isValid shiftStart = true ->
  calculateLate punchIn shiftStart =
  Num (if instant punchIn <=? instant shiftStart then 0
       else Z.quot (instant punchIn - instant shiftStart) 60000).
Proof.
  intros Hi Hs. unfold calculateLate, isSameOrBefore, isSame, isBefore, diff.
  by_instants; try lia; reflexivity.
Qed.

Lemma calculateUndertime_valid punchOut shiftEnd :
  isValid punchOut = true -> isValid shiftEnd = true ->
  calculateUndertime punchOut shiftEnd =
  Num (if instant shiftEnd <=? instant punchOut then 0
       else Z.quot (instant shiftEnd - instant punchOut) 60000).
Proof.
  intros Ho He. unfold calculateUndertime, isSameOrAfter, isSame, isAfter, diff.
  by_instants; try lia; reflexivity.
Qed.

Lemma calculateOvertime_valid punchIn punchOut shiftEnd total scheduled :
  isValid punchOut = true -> isValid shiftEnd = true ->
  calculateOvertime punchIn punchOut shiftEnd total scheduled =
  Num (if instant punchOut <=? instant shiftEnd then 0
       else Z.quot (instant punchOut - instant shiftEnd) 60000).
Proof.
  intros Ho He. unfold calculateOvertime, isSameOrBefore, isSame, isBefore, diff.
  by_instants; try lia; reflexivity.
Qed.

Lemma calculateRegularHours_valid punchIn punchOut shiftStart shiftEnd :
  isValid punchIn = true -> isValid punchOut = true ->
  isValid shiftStart = true -> isValid shiftEnd = true ->
  calculateRegularHours punchIn punchOut shiftStart shiftEnd (diff shiftEnd shiftStart) =
  Num (let effectiveStart := Z.max (instant punchIn) (instant shiftStart) in
       let effectiveEnd := Z.min (instant punchOut) (instant shiftEnd) in
       if effectiveEnd <=? effectiveStart then 0
       else Z.min (Z.quot (effectiveEnd - effectiveStart) 60000)
                  (Z.quot (instant shiftEnd - instant shiftStart) 60000)).
Proof.
  intros Hi Ho Hs He.
  unfold calculateRegularHours, isSameOrBefore, isSame, isBefore, isAfter, diff, Math_min.
  cbv zeta.
  destruct (Z.max_spec (instant punchIn) (instant shiftStart)) as [[? ->] | [? ->]];
  destruct (Z.min_spec (instant punchOut) (instant shiftEnd)) as [[? ->] | [? ->]];
  by_instants; try lia; try reflexivity;
    match goal with
    | Hle : ?x <= ?y, Hge : ?y <= ?x |- _ => replace y with x by lia
    end; reflexivity.
Qed.

Section Metrics.

Context `{Runtime}.

(** C3, amended: for every input in which punchOut is at or after punchIn
    and punchIn lies between the resolved shiftStart and shiftEnd (both
    included), the call returns and overtimeMinutes plus regularMinutes is
    at most totalWorkedMinutes. *)
Theorem overtime_plus_regular_le_total attendance schedule r :
  resolve attendance schedule = Return r ->
  isSameOrAfter (r_punchIn r) (r_shiftStart r) = true ->
  isSameOrBefore (r_punchIn r) (r_shiftEnd r) = true ->
  isSameOrAfter (r_punchOut r) (r_punchIn r) = true ->
  exists m overtime regular total,
    calculateTimeMetrics attendance schedule = Return m
    /\ overtimeMinutes m = Num overtime
    /\ regularMinutes m = Num regular
    /\ totalWorkedMinutes m = Num total
    /\ overtime + regular <= total.
Proof.
  intros Hr Hstart Hend Hout.
  destruct (calculateTimeMetrics_fields _ _ _ Hr)
    as (m & Hm & _ & _ & Htotal & Hregular & Hovertime & _).
  apply isSameOrAfter_true in Hstart as (Hvi & Hvs & Hs).
  apply isSameOrBefore_true in Hend as (_ & Hve & He).
  apply isSameOrAfter_true in Hout as (Hvo & _ & Ho).
  unfold scheduledMinutes in *.
  rewrite calculateOvertime_valid in Hovertime by assumption.
  rewrite calculateRegularHours_valid in Hregular by assumption.
  rewrite diff_valid in Htotal by assumption.
  exists m. do 3 eexists. repeat (split; [eassumption |]).
  cbv zeta.
  set (i := instant (r_punchIn r)) in *. set (o := instant (r_punchOut r)) in *.
  set (s := instant (r_shiftStart r)) in *. set (e := instant (r_shiftEnd r)) in *.
  rewrite (Z.max_l i s) by lia.
  pose proof (quot_minutes_nonneg (o - i) ltac:(lia)).
  destruct (Z.leb_spec o e) as [Hoe | Hoe].
  - rewrite (Z.min_l o e) by lia.
    destruct (Z.leb_spec o i); [lia |].
    pose proof (Z.le_min_l (Z.quot (o - i) 60000) (Z.quot (e - s) 60000)). lia.
  - rewrite (Z.min_r o e) by lia.
    pose proof (quot_minutes_add (e - i) (o - e) ltac:(lia) ltac:(lia)) as Hadd.
    replace (e - i + (o - e)) with (o - i) in Hadd by lia.
    destruct (Z.leb_spec e i).
    + assert (e = i) as -> by lia. lia.
    + pose proof (Z.le_min_l (Z.quot (e - i) 60000) (Z.quot (e - s) 60000)). lia.
Qed.

(** C4, amended: for every non-inverted input (punchOut after punchIn)
    whose resolved shiftEnd is not before its shiftStart, the call returns
    and regularMinutes lies in [0, scheduledMinutes]. *)
Theorem regular_within_schedule attendance schedule r :
  resolve attendance schedule = Return r ->
  isAfter (r_punchOut r) (r_punchIn r) = true ->
  isSameOrAfter (r_shiftEnd r) (r_shiftStart r) = true ->
  exists m regular scheduled,
    calculateTimeMetrics attendance schedule = Return m
    /\ regularMinutes m = Num regular
    /\ scheduledMinutes r = Num scheduled
    /\ 0 <= regular <= scheduled.
Proof.
  intros Hr Hout Hshift.
  destruct (calculateTimeMetrics_fields _ _ _ Hr)
    as (m & Hm & _ & _ & _ & Hregular & _).
  apply isAfter_true in Hout as (Hvo & Hvi & Ho).
  apply isSameOrAfter_true in Hshift as (Hve & Hvs & Hse).
  unfold scheduledMinutes in *.
  rewrite calculateRegularHours_valid in Hregular by assumption.
  rewrite diff_valid by assumption.
  exists m. do 2 eexists. split; [exact Hm |]. split; [exact Hregular |].
  split; [reflexivity |]. cbv zeta.
  set (i := instant (r_punchIn r)) in *. set (o := instant (r_punchOut r)) in *.
  set (s := instant (r_shiftStart r)) in *. set (e := instant (r_shiftEnd r)) in *.
  pose proof (quot_minutes_nonneg (e - s) ltac:(lia)).
  destruct (Z.leb_spec (Z.min o e) (Z.max i s)); [lia |].
  pose proof (quot_minutes_nonneg (Z.min o e - Z.max i s) ltac:(lia)).
  lia.
Qed.

(** C5, amended: for every input in which punchIn is at or before the
    resolved shiftStart, punchOut is at or after the resolved shiftEnd, and
    shiftEnd is not before shiftStart, the call returns with regularMinutes
    equal to scheduledMinutes, lateMinutes 0 and undertimeMinutes 0. *)
Theorem full_coverage_metrics attendance schedule r :
  resolve attendance schedule = Return r ->
  isSameOrBefore (r_punchIn r) (r_shiftStart r) = true ->
  isSameOrAfter (r_punchOut r) (r_shiftEnd r) = true ->
  isSameOrAfter (r_shiftEnd r) (r_shiftStart r) = true ->
  exists m,
    calculateTimeMetrics attendance schedule = Return m
    /\ regularMinutes m = scheduledMinutes r
    /\ lateMinutes m = Num 0
    /\ undertimeMinutes m = Num 0.
Proof.
  intros Hr Hin Hout Hshift.
  destruct (calculateTimeMetrics_fields _ _ _ Hr)
    as (m & Hm & Hlate & Hunder & _ & Hregular & _).
  apply isSameOrBefore_true in Hin as (Hvi & Hvs & Hi).
  apply isSameOrAfter_true in Hout as (Hvo & Hve & Ho).
  apply isSameOrAfter_true in Hshift as (_ & _ & Hse).
  unfold scheduledMinutes in *.
  rewrite calculateRegularHours_valid in Hregular by assumption.
  rewrite calculateLate_valid in Hlate by assumption.
  rewrite calculateUndertime_valid in Hunder by assumption.
  rewrite diff_valid by assumption.
  exists m. split; [exact Hm |].
  rewrite Hregular, Hlate, Hunder. cbv zeta.
  rewrite Z.max_r, Z.min_r by lia.
  destruct (Z.leb_spec (instant (r_punchIn r)) (instant (r_shiftStart r))); [| lia].
  destruct (Z.leb_spec (instant (r_shiftEnd r)) (instant (r_punchOut r))); [| lia].
  repeat split.
  destruct (Z.leb_spec (instant (r_shiftEnd r)) (instant (r_shiftStart r))).
  - replace (instant (r_shiftEnd r)) with (instant (r_shiftStart r)) by lia.
    now rewrite Z.sub_diag.
  - now rewrite Z.min_id.
Qed.

End Metrics.

(** C3, as stated, fails: with a punch-out half an hour before a punch-in
    that is after the shift start, overtime and regular time are both 0
    and the time worked is -30 minutes; and with the overnight punches,
    made after the shift end, overtime is 780 minutes of 600 worked. *)
Lemma overtime_regular_above_total :
  (exists r m,
      resolve (H := Reference.runtime) invertedPunches daySchedule = Return r
      /\ isSameOrAfter (r_punchIn r) (r_shiftStart r) = true
      /\ calculateTimeMetrics (H := Reference.runtime) invertedPunches daySchedule = Return m
      /\ overtimeMinutes m = Num 0 /\ regularMinutes m = Num 0
      /\ totalWorkedMinutes m = Num (-30)
      /\ ~ (0 + 0 <= -30))
  /\ (exists r m,
         resolve (H := Reference.runtime) overnightPunches daySchedule = Return r
         /\ isSameOrAfter (r_punchIn r) (r_shiftStart r) = true
         /\ calculateTimeMetrics (H := Reference.runtime) overnightPunches daySchedule
            = Return m
         /\ overtimeMinutes m = Num 780 /\ regularMinutes m = Num 0
         /\ totalWorkedMinutes m = Num 600
         /\ ~ (780 + 0 <= 600)).
Proof.
  split.
  - do 2 eexists. split; [vm_compute; reflexivity |].
    split; [vm_compute; reflexivity |].
    split; [vm_compute; reflexivity |].
    simpl. repeat split. lia.
  - do 2 eexists. split; [vm_compute; reflexivity |].
    split; [vm_compute; reflexivity |].
    split; [vm_compute; reflexivity |].
    simpl. repeat split. lia.
Qed.

(** The bound at the day-shift scenario. *)
Lemma overtime_plus_regular_le_total_witness :
  exists r,
    resolve (H := Reference.runtime) dayPunches daySchedule = Return r
    /\ isSameOrAfter (r_punchIn r) (r_shiftStart r) = true
    /\ isSameOrBefore (r_punchIn r) (r_shiftEnd r) = true
    /\ isSameOrAfter (r_punchOut r) (r_punchIn r) = true
    /\ exists m overtime regular total,
         calculateTimeMetrics (H := Reference.runtime) dayPunches daySchedule = Return m
         /\ overtimeMinutes m = Num overtime
         /\ regularMinutes m = Num regular
         /\ totalWorkedMinutes m = Num total
         /\ overtime + regular <= total.
Proof.
  eexists. split; [vm_compute; reflexivity |].
  split; [vm_compute; reflexivity |].
  split; [vm_compute; reflexivity |].
  split; [vm_compute; reflexivity |].
  eapply (overtime_plus_regular_le_total (H := Reference.runtime) dayPunches daySchedule);
    vm_compute; reflexivity.
Defined.

(** C4, as stated, fails: a night shift worked from 22:00 to 06:00 under
    the 22:00-06:00 schedule is a non-inverted input; its shift window
    resolves to -960 scheduled minutes and its regular time is 0, which is
    not in [0, -960]. *)
Lemma regular_above_schedule_on_night_shift :
  exists r m,
    resolve (H := Reference.runtime) nightShiftPunches nightSchedule = Return r
    /\ isAfter (r_punchOut r) (r_punchIn r) = true
    /\ calculateTimeMetrics (H := Reference.runtime) nightShiftPunches nightSchedule = Return m
    /\ regularMinutes m = Num 0
    /\ scheduledMinutes r = Num (-960)
    /\ ~ (0 <= 0 <= -960).
Proof.
  do 2 eexists. split; [vm_compute; reflexivity |].
  split; [vm_compute; reflexivity |].
  split; [vm_compute; reflexivity |].
  split; [reflexivity |]. split; [vm_compute; reflexivity |]. lia.
Qed.

(** The interval at the day-shift scenario. *)
Lemma regular_within_schedule_witness :
  exists r,
    resolve (H := Reference.runtime) dayPunches daySchedule = Return r
    /\ isAfter (r_punchOut r) (r_punchIn r) = true
    /\ isSameOrAfter (r_shiftEnd r) (r_shiftStart r) = true
    /\ exists m regular scheduled,
         calculateTimeMetrics (H := Reference.runtime) dayPunches daySchedule = Return m
         /\ regularMinutes m = Num regular
         /\ scheduledMinutes r = Num scheduled
         /\ 0 <= regular <= scheduled.
Proof.
  eexists. split; [vm_compute; reflexivity |].
  split; [vm_compute; reflexivity |].
  split; [vm_compute; reflexivity |].
  eapply (regular_within_schedule (H := Reference.runtime) dayPunches daySchedule);
    vm_compute; reflexivity.
Defined.

(** C5, as stated, fails: under the 22:00-06:00 schedule the punches 21:00
    and 07:00 of the next day cover the resolved window (punch-in before
    its start, punch-out after its end), yet regular time is 0 while the
    scheduled minutes are -960. *)
Lemma full_coverage_fails_on_night_schedule :
  exists r m,
    resolve (H := Reference.runtime) overnightPunches nightSchedule = Return r
    /\ isSameOrBefore (r_punchIn r) (r_shiftStart r) = true
    /\ isSameOrAfter (r_punchOut r) (r_shiftEnd r) = true
    /\ calculateTimeMetrics (H := Reference.runtime) overnightPunches nightSchedule = Return m
    /\ regularMinutes m = Num 0
    /\ scheduledMinutes r = Num (-960)
    /\ regularMinutes m <> scheduledMinutes r.
Proof.
  do 2 eexists. split; [vm_compute; reflexivity |].
  split; [vm_compute; reflexivity |].
  split; [vm_compute; reflexivity |].
  split; [vm_compute; reflexivity |].
  split; [reflexivity |]. split; [vm_compute; reflexivity |].
  vm_compute. discriminate.
Qed.

(** Full coverage of the day shift, 08:45 to 18:20. *)
Lemma full_coverage_metrics_witness :
  exists r,
    resolve (H := Reference.runtime) fullDayPunches daySchedule = Return r
    /\ isSameOrBefore (r_punchIn r) (r_shiftStart r) = true
    /\ isSameOrAfter (r_punchOut r) (r_shiftEnd r) = true
    /\ isSameOrAfter (r_shiftEnd r) (r_shiftStart r) = true
    /\ exists m,
         calculateTimeMetrics (H := Reference.runtime) fullDayPunches daySchedule = Return m
         /\ regularMinutes m = scheduledMinutes r
         /\ lateMinutes m = Num 0
         /\ undertimeMinutes m = Num 0.
Proof.
  eexists. split; [vm_compute; reflexivity |].
  split; [vm_compute; reflexivity |].
  split; [vm_compute; reflexivity |].
  split; [vm_compute; reflexivity |].
  eapply (full_coverage_metrics (H := Reference.runtime) fullDayPunches daySchedule);
    vm_compute; reflexivity.
Defined.

(** ** Failures *)

Section Failures.

Context `{Runtime}.

Lemma tz_instant m name m' :
  tz zoneOf m name = Some m' ->
  (isValid m' = true ->
   isValid m = true /\ instant m' = instant m /\ consistent m')
  /\ _z m' = zoneOf name.
Proof.
  unfold tz. destruct (String.eqb name ""); [discriminate |].
  intros [= <-].
  match goal with
  | |- context [updateOffset ?x false] =>
      destruct (updateOffset_instant x false) as (Hv & Hi & Hz)
  end.
  split; [| exact Hz].
  intros Hr. destruct (Hi eq_refl Hr) as (Hinst & Hoff).
  split; [exact (Hv Hr) |]. split; [exact Hinst |].
  unfold consistent. now rewrite Hoff, Hz, Hinst.
Qed.

(** A punch keeps its validity in the zone when its local reading there is
    a time that a Date can hold. *)
Lemma tz_valid m name m' :
  tz zoneOf m name = Some m' ->
  isValid m = true ->
  inRange (instant m + zoneOf name (instant m) * 60000) = true ->
  isValid m' = true.
Proof.
  unfold tz. destruct (String.eqb name ""); [discriminate |].
  intros [= <-] Hv Hr. now apply updateOffset_valid.
Qed.











End Failures.


(** ** Inverted and zero-length intervals *)

Section Inverted.

Context `{Runtime}.

Lemma punchInstant_moment attendance key a :
  punchInstant attendance key = Some a ->
  isValid (moment (get attendance key)) = true
  /\ instant (moment (get attendance key)) = a.
Proof.
  unfold punchInstant.
  destruct (isValid (moment (get attendance key))); [| discriminate].
  intros [= <-]. split; reflexivity.
Qed.

Lemma calculateNightDifferential_not_before punchIn punchOut :
  isBefore punchIn punchOut = false ->
  calculateNightDifferential punchIn punchOut = Return (Num 0).
Proof.
  intros Hb. unfold calculateNightDifferential. cbv zeta.
  destruct (isBefore (clone punchIn) (clone punchOut)) eqn:Hc.
  { apply isBefore_clone in Hc. congruence. }
  destruct (steps (clone punchIn) (clone punchOut)); simpl; now rewrite Hc.
Qed.


End Inverted.



(** ** The batch *)

Section Batch.

Context `{Runtime}.

Lemma batchEntry_returns userSchedule record :
  exists entry,
    batchEntry userSchedule record = Return entry /\ entryOf userSchedule record entry.
Proof.
  unfold batchEntry, entryOf.
  destruct (calculateTimeMetrics_total record userSchedule) as [(m & Hm) | (e & He)].
  - rewrite Hm. eexists. split; [reflexivity |]. left. eauto.
  - rewrite He. eexists. split; [reflexivity |]. right. eauto.
Qed.

Lemma Array_map_returns {A B} (f : A -> completion B) (P : A -> B -> Prop) l :
  (forall x, exists y, f x = Return y /\ P x y) ->
  exists ys, Array_map f l = Return ys /\ Forall2 P l ys.
Proof.
  intros Hf. induction l as [| x l (ys & Hys & HP)]; simpl.
  - exists []. split; [reflexivity | constructor].
  - destruct (Hf x) as (y & Hy & Hxy). rewrite Hy, Hys. simpl.
    exists (y :: ys). split; [reflexivity | now constructor].
Qed.

Lemma batch_entries attendanceRecords userSchedule :
  exists results,
    batchCalculateTimeMetrics attendanceRecords userSchedule = Return results
    /\ Forall2 (entryOf userSchedule) attendanceRecords results.
Proof.
  unfold batchCalculateTimeMetrics.
  apply Array_map_returns. intros record. apply batchEntry_returns.
Qed.

(** C7: for every input list, batchCalculateTimeMetrics returns a list of
    the same length in which the entry at each position comes from the
    record at that position: when calculateTimeMetrics returns metrics for
    the record, the entry holds them with a null calculationError; when it
    throws, the entry holds null metrics and the (non-null) message of the
    error.  Whether the other records succeed or fail plays no part. *)
Theorem batch_isolates_failures attendanceRecords userSchedule :
  exists results,
    batchCalculateTimeMetrics attendanceRecords userSchedule = Return results
    /\ length results = length attendanceRecords
    /\ forall (i : nat) (record : object),
         attendanceRecords !! i = Some record ->
         exists entry : object,
           results !! i = Some entry
           /\ ((exists metrics,
                   calculateTimeMetrics record userSchedule = Return metrics
                   /\ entry !! "metrics" = Some (VObject metrics)
                   /\ entry !! "calculationError" = Some null)
               \/ (exists error,
                      calculateTimeMetrics record userSchedule = Throw error
                      /\ entry !! "metrics" = Some null
                      /\ entry !! "calculationError" = Some (VString (message error))))
           /\ (get entry "metrics" = null <-> get entry "calculationError" <> null).
Proof.
  destruct (batch_entries attendanceRecords userSchedule) as (results & Hres & Hall).
  exists results. split; [exact Hres |].
  split; [symmetry; eapply Forall2_length; exact Hall |].
  intros i record Hi.
  destruct (Forall2_lookup_l _ _ _ _ _ Hall Hi) as (entry & Hentry & Hof).
  exists entry. split; [exact Hentry |].
  destruct Hof as [(m & Hm & ->) | (e & He & ->)].
  - split.
    + left. exists m. split; [exact Hm |].
      split; [now rewrite lookup_insert_ne, lookup_insert_eq | now rewrite lookup_insert_eq].
    + unfold get.
      rewrite lookup_insert_eq, lookup_insert_ne, lookup_insert_eq by discriminate.
      simpl. split; [discriminate | congruence].
  - split.
    + right. exists e. split; [exact He |].
      split; [now rewrite lookup_insert_ne, lookup_insert_eq | now rewrite lookup_insert_eq].
    + unfold get.
      rewrite lookup_insert_eq, lookup_insert_ne, lookup_insert_eq by discriminate.
      simpl. split; [discriminate | reflexivity].
Qed.

(** C10, amended: every entry of the output of batchCalculateTimeMetrics
    agrees with the input record at the same position on every field other
    than metrics and calculationError; these two are written by the batch,
    over a field of the same name if the record has one. *)
Theorem batch_keeps_other_fields attendanceRecords userSchedule results
    (i : nat) (record entry : object) (key : string) :
  batchCalculateTimeMetrics attendanceRecords userSchedule = Return results ->
  attendanceRecords !! i = Some record ->
  results !! i = Some entry ->
  key <> "metrics" -> key <> "calculationError" ->
  entry !! key = record !! key
  /\ get entry "metrics" <> undefined
  /\ get entry "calculationError" <> undefined.
Proof.
  intros Hres Hi Hentry Hm He.
  destruct (batch_entries attendanceRecords userSchedule) as (results' & Hres' & Hall).
  rewrite Hres in Hres'. injection Hres' as <-.
  destruct (Forall2_lookup_l _ _ _ _ _ Hall Hi) as (entry' & Hentry' & Hof).
  rewrite Hentry in Hentry'. injection Hentry' as <-.
  unfold get.
  destruct Hof as [(m & _ & ->) | (e & _ & ->)];
    rewrite lookup_insert_ne, lookup_insert_ne by congruence;
    rewrite lookup_insert_eq, lookup_insert_ne, lookup_insert_eq by discriminate;
    simpl; repeat split; discriminate.
Qed.

Lemma batch_of_one record userSchedule metrics :
  calculateTimeMetrics record userSchedule = Return metrics ->
  batchCalculateTimeMetrics [record] userSchedule
  = Return [<["calculationError" := null]> (<["metrics" := VObject metrics]> record)].
Proof.
  intros Hm. unfold batchCalculateTimeMetrics. simpl. unfold batchEntry.
  now rewrite Hm.
Qed.

End Batch.

(** The batch of three of the specification: the record without punch-out
    gets the error and null metrics, its neighbours get their metrics. *)
Example batch_of_three :
  match batchCalculateTimeMetrics (H := Reference.runtime) threeRecords daySchedule with
  | Return results =>
      (fun entry : object =>
         (match get entry "metrics" with VObject _ => true | _ => false end,
          get entry "calculationError")) <$> results
  | _ => []
  end
  = [(true, null);
     (false, VString "Both punchIn and punchOut are required");
     (true, null)].
Proof. vm_compute. reflexivity. Qed.

(** C10, as stated, fails: a stored entry that already has a metrics field
    does not keep its value; the batch writes the new metrics over it. *)
Lemma batch_overwrites_metrics_field :
  exists (results : list object) (entry : object),
    batchCalculateTimeMetrics (H := Reference.runtime) [storedEntry] daySchedule
    = Return results
    /\ results !! 0%nat = Some entry
    /\ storedEntry !! "metrics" = Some (VObject staleMetrics)
    /\ entry !! "metrics" <> storedEntry !! "metrics".
Proof.
  assert (exists m, calculateTimeMetrics (H := Reference.runtime) storedEntry daySchedule
                    = Return m /\ totalWorkedMinutes m = Num 615) as (m & Hm & Htotal)
    by (eexists; split; [vm_compute; reflexivity | reflexivity]).
  do 2 eexists. split; [apply batch_of_one; exact Hm |].
  split; [reflexivity |].
  split; [apply lookup_insert_eq |].
  rewrite lookup_insert_ne, lookup_insert_eq by discriminate.
  unfold storedEntry at 1. rewrite lookup_insert_eq.
  intros [= ->]. discriminate Htotal.
Qed.

(** The stored entry keeps its id through the batch. *)
Lemma batch_keeps_other_fields_witness :
  exists (results : list object) (entry : object),
    batchCalculateTimeMetrics (H := Reference.runtime) [storedEntry] daySchedule
    = Return results
    /\ [storedEntry] !! 0%nat = Some storedEntry
    /\ results !! 0%nat = Some entry
    /\ "id" <> "metrics" /\ "id" <> "calculationError"
    /\ entry !! "id" = storedEntry !! "id"
    /\ get entry "metrics" <> undefined
    /\ get entry "calculationError" <> undefined.
Proof.
  assert (exists m, calculateTimeMetrics (H := Reference.runtime) storedEntry daySchedule
                    = Return m) as (m & Hm)
    by (eexists; vm_compute; reflexivity).
  pose proof (batch_of_one (H := Reference.runtime) _ _ _ Hm) as Hbatch.
  do 2 eexists. split; [exact Hbatch |].
  split; [reflexivity |]. split; [reflexivity |].
  split; [discriminate |]. split; [discriminate |].
  apply (batch_keeps_other_fields (H := Reference.runtime) [storedEntry] daySchedule
           _ 0%nat storedEntry _ "id" Hbatch);
    [reflexivity | reflexivity | discriminate | discriminate].
Defined.

(** ** The night differential *)

(** The minutes of an interval are the instants one, two, ... whole
    minutes after its start that are still before its end. *)
Lemma minuteMarks_spec a b t :
  t ∈ minuteMarks a b <-> exists k, 0 <= k /\ t = a + k * 60000 /\ a <= t < b.
Proof.
  unfold minuteMarks. rewrite list_elem_of_fmap. split.
  - intros (k & -> & Hk). apply elem_of_seqZ in Hk. exists k.
    split; [lia |]. split; [reflexivity |].
    revert Hk. Z.div_mod_to_equations. lia.
  - intros (k & Hk & -> & Hlt). exists k. split; [reflexivity |].
    apply elem_of_seqZ. revert Hlt. Z.div_mod_to_equations. lia.
Qed.

Lemma minuteMarks_nil a b : b <= a -> minuteMarks a b = [].
Proof.
  intros Hle. unfold minuteMarks. rewrite seqZ_nil; [reflexivity |].
  Z.div_mod_to_equations. lia.
Qed.

Lemma minuteMarks_step a b :
  a < b -> minuteMarks a b = a :: minuteMarks (a + 60000) b.
Proof.
  intros Hlt. unfold minuteMarks.
  replace ((b - (a + 60000) + 59999) / 60000) with (Z.pred ((b - a + 59999) / 60000))
    by (Z.div_mod_to_equations; lia).
  rewrite (seqZ_cons 0) by (Z.div_mod_to_equations; lia).
  rewrite fmap_cons. f_equal; [lia |].
  change (Z.succ 0) with (1 + 0). rewrite <- fmap_add_seqZ, <- list_fmap_compose.
  apply list_fmap_ext. intros _ k _. simpl. lia.
Qed.

Lemma nightMinuteCount_nil zone a b : b <= a -> nightMinuteCount zone a b = 0.
Proof. intros Hle. unfold nightMinuteCount. now rewrite minuteMarks_nil. Qed.

Lemma nightMinuteCount_step zone a b :
  a < b ->
  nightMinuteCount zone a b
  = (if nightAt zone a then 1 else 0) + nightMinuteCount zone (a + 60000) b.
Proof.
  intros Hlt. unfold nightMinuteCount. rewrite minuteMarks_step by assumption.
  rewrite filter_cons.
  destruct (nightAt zone a); case_decide; try congruence; simpl length; lia.
Qed.

Lemma updateOffset_consistent m :
  isValid m = true -> consistent (updateOffset m false).
Proof.
  intros Hv. unfold consistent, updateOffset, utcOffset. rewrite Hv.
  destruct (Z.eqb_spec (_offset m) (_z m (instant m))) as [E | E];
    unfold instant, setTime, with_offset in *; simpl.
  - rewrite <- E at 2. rewrite <- E. reflexivity.
  - f_equal. lia.
Qed.

Lemma get_hour_consistent m :
  isValid m = true -> consistent m ->
  get_hour m = Num (localHour (_z m) (instant m)).
Proof.
  intros Hv Hc. unfold get_hour, localHour. rewrite Hv, <- Hc.
  unfold instant. do 3 f_equal. lia.
Qed.

Lemma night_test m :
  isValid m = true -> consistent m ->
  ge (get_hour m) (Num 22) || lt (get_hour m) (Num 6) = nightAt (_z m) (instant m).
Proof.
  intros Hv Hc. rewrite get_hour_consistent by assumption. reflexivity.
Qed.

Lemma add1minute_consistent m :
  isValid (add1minute m) = true -> consistent (add1minute m).
Proof.
  intros Hv. destruct (add1minute_instant m) as (Hi & Hz).
  destruct (Hi Hv) as (_ & Hinst & Ho).
  unfold consistent. now rewrite Ho, Hz, Hinst.
Qed.

Lemma nightScan_done fuel cur stop n :
  isBefore cur stop = false -> nightScan fuel cur stop n = Some n.
Proof. intros Hb. destruct fuel; simpl; now rewrite Hb. Qed.

Lemma withinDateRange_sub zone a b a' b' :
  withinDateRange zone a b -> a <= a' -> b' <= b -> withinDateRange zone a' b'.
Proof. intros Hr Ha Hb t s Ht Hs. apply Hr; lia. Qed.

(** The scan adds to its counter the night minutes from the current time
    on, whatever fuel it is given beyond the steps that remain, as long as
    the interval it runs over stays inside the range of Date. *)
Lemma nightScan_counts fuel : forall cur stop acc,
  consistent cur ->
  (instant stop - instant cur + 59999) / 60000 <= Z.of_nat fuel ->
  withinDateRange (_z cur) (instant cur) (instant stop) ->
  nightScan fuel cur stop (Num acc)
  = Some (Num (if isBefore cur stop
               then acc + nightMinuteCount (_z cur) (instant cur) (instant stop)
               else acc)).
Proof.
  induction fuel as [| fuel IH]; intros cur stop acc Hc Hfuel Hrange; simpl.
  - destruct (isBefore cur stop) eqn:Hb; [| reflexivity].
    apply isBefore_true in Hb as (_ & _ & Hlt).
    revert Hfuel. Z.div_mod_to_equations. lia.
  - destruct (isBefore cur stop) eqn:Hb; [| reflexivity].
    apply isBefore_true in Hb as (Hv & Hvs & Hlt).
    destruct (add1minute_instant cur) as (Hnext & Hz).
    pose proof (steps_next cur stop fuel Hlt Hfuel) as Hsteps.
    rewrite night_test by auto.
    rewrite (nightMinuteCount_step _ _ _ Hlt).
    assert (Hrest : forall acc',
               nightScan fuel (add1minute cur) stop (Num acc')
               = Some (Num (acc' + nightMinuteCount (_z cur) (instant cur + 60000)
                                     (instant stop)))).
    { intros acc'.
      destruct (Z.lt_ge_cases (instant cur + 60000) (instant stop)) as [Hmore | Hlast].
      - assert (Hv' : isValid (add1minute cur) = true).
        { apply add1minute_valid; [exact Hv | |].
          - replace (_d cur + 60000)
              with (instant cur + 60000 + _z cur (instant cur) * 60000)
              by (rewrite <- Hc; unfold instant; lia).
            apply Hrange; lia.
          - apply Hrange; lia. }
        destruct (Hnext Hv') as (_ & Hi & _).
        rewrite IH.
        + rewrite Hz, Hi. unfold isBefore. rewrite Hv', Hvs, Hi. simpl.
          destruct (Z.ltb_spec (instant cur + 60000) (instant stop)); [reflexivity | lia].
        + now apply add1minute_consistent.
        + now rewrite Hi.
        + rewrite Hz, Hi. eapply withinDateRange_sub; [exact Hrange | lia | lia].
      - rewrite nightScan_done.
        + rewrite nightMinuteCount_nil by lia. do 2 f_equal. lia.
        + destruct (isBefore (add1minute cur) stop) eqn:Hb'; [| reflexivity].
          apply isBefore_true in Hb' as (Hv' & _ & Hlt').
          destruct (Hnext Hv') as (_ & Hi & _). lia. }
    destruct (nightAt (_z cur) (instant cur)); simpl; rewrite Hrest; do 2 f_equal; lia.
Qed.

Lemma calculateNightDifferential_counts punchIn punchOut :
  isValid punchIn = true -> isValid punchOut = true ->
  consistent punchIn -> consistent punchOut ->
  withinDateRange (_z punchIn) (instant punchIn) (instant punchOut) ->
  calculateNightDifferential punchIn punchOut
  = Return (Num (nightMinuteCount (_z punchIn) (instant punchIn) (instant punchOut))).
Proof.
  intros Hvi Hvo Hci Hco Hrange. unfold calculateNightDifferential. cbv zeta.
  rewrite !clone_consistent by assumption.
  rewrite nightScan_counts by (auto using steps_enough).
  unfold isBefore. rewrite Hvi, Hvo. simpl.
  destruct (Z.ltb_spec (instant punchIn) (instant punchOut)); [reflexivity |].
  now rewrite nightMinuteCount_nil by lia.
Qed.

(** *** Started minutes and whole minutes *)

(** The started minutes of an interval are its whole minutes and, when
    its length is not a whole number of minutes, the minute that is under
    way at its end. *)
Lemma nightMinuteCount_whole zone a b :
  wholeNightMinutes zone a b <= nightMinuteCount zone a b
  <= wholeNightMinutes zone a b + 1
  /\ ((b - a) mod 60000 = 0 -> nightMinuteCount zone a b = wholeNightMinutes zone a b).
Proof.
  unfold nightMinuteCount, wholeNightMinutes, minuteMarks, wholeMinuteMarks.
  set (n := (b - a + 59999) / 60000). set (w := (b - a) / 60000).
  assert (Hn : w <= n <= w + 1) by (subst n w; Z.div_mod_to_equations; lia).
  assert (Hmod : (b - a) mod 60000 = 0 -> n = w)
    by (subst n w; Z.div_mod_to_equations; lia).
  destruct (Z.le_gt_cases w 0) as [Hw | Hw].
  - rewrite (seqZ_nil 0 w) by assumption. simpl.
    split.
    + split; [lia |].
      pose proof (length_filter (fun t => nightAt zone t = true)
                    ((fun k => a + k * 60000) <$> seqZ 0 n)) as Hl.
      rewrite length_fmap, length_seqZ in Hl. lia.
    + intros H0. assert (n <= 0) as Hle.
      { subst n w. revert Hw H0. Z.div_mod_to_equations. lia. }
      now rewrite (seqZ_nil 0 n).
  - replace n with (w + (n - w)) by lia.
    rewrite seqZ_app, fmap_app, filter_app, length_app by lia.
    pose proof (length_filter (fun t => nightAt zone t = true)
                  ((fun k => a + k * 60000) <$> seqZ (0 + w) (n - w))) as Hl.
    rewrite length_fmap, length_seqZ in Hl.
    split; [lia |].
    intros H0. rewrite (Hmod H0), Z.sub_diag. simpl. lia.
Qed.

(** *** Growth of the count *)

Lemma nightMinuteCount_mono_end zone a b b' :
  b <= b' -> nightMinuteCount zone a b <= nightMinuteCount zone a b'.
Proof.
  intros Hle. unfold nightMinuteCount, minuteMarks.
  set (n := (b - a + 59999) / 60000). set (n' := (b' - a + 59999) / 60000).
  assert (n <= n') by (subst n n'; apply Z.div_le_mono; lia).
  destruct (Z.le_gt_cases n 0) as [Hn | Hn].
  - rewrite (seqZ_nil 0 n) by assumption. simpl. lia.
  - replace n' with (n + (n' - n)) by lia.
    rewrite seqZ_app, fmap_app, filter_app, length_app by lia. lia.
Qed.

Lemma length_filter_fmap {A B} (f : A -> B) (P : B -> Prop)
    `{forall y, Decision (P y)} (l : list A) :
  length (filter P (f <$> l)) = length (filter (fun x => P (f x)) l).
Proof.
  induction l as [| x l IH]; [reflexivity |].
  rewrite fmap_cons, !filter_cons. destruct (decide (P (f x))); simpl; now rewrite IH.
Qed.

Lemma filter_all {A} (P : A -> Prop) `{forall x, Decision (P x)} (l : list A) :
  (forall x, x ∈ l -> P x) -> filter P l = l.
Proof.
  induction l as [| x l IH]; intros Hall; [reflexivity |].
  rewrite filter_cons_True by (apply Hall; left).
  f_equal. apply IH. intros y Hy. apply Hall. now right.
Qed.

Lemma nightAt_aligned zone t :
  minuteAligned zone -> nightAt zone t = nightAt zone (t / 60000 * 60000).
Proof.
  intros Hal. unfold nightAt, localHour. rewrite <- (Hal t).
  assert ((t + zone t * 60000) / 3600000
          = (t / 60000 * 60000 + zone t * 60000) / 3600000) as ->
    by (Z.div_mod_to_equations; lia).
  reflexivity.
Qed.

Lemma nightMinuteCount_index zone a b :
  minuteAligned zone ->
  nightMinuteCount zone a b
  = nightMinutesFrom zone (a / 60000) ((b - a + 59999) / 60000).
Proof.
  intros Hal. unfold nightMinuteCount, nightMinutesFrom, minuteMarks.
  f_equal. rewrite <- (Z.add_0_r (a / 60000)) at 1.
  rewrite <- fmap_add_seqZ, !length_filter_fmap.
  f_equal. apply list_filter_iff. intros k.
  rewrite (nightAt_aligned zone (a + k * 60000)) by assumption.
  replace ((a + k * 60000) / 60000) with (a / 60000 + k); [reflexivity |].
  rewrite Z.div_add by lia. reflexivity.
Qed.

Lemma nightMinutesFrom_app zone first n1 n2 :
  0 <= n1 -> 0 <= n2 ->
  nightMinutesFrom zone first (n1 + n2)
  = nightMinutesFrom zone first n1 + nightMinutesFrom zone (first + n1) n2.
Proof.
  intros. unfold nightMinutesFrom.
  rewrite seqZ_app, filter_app, length_app by assumption. lia.
Qed.

Lemma nightMinutesFrom_bounds zone first n :
  0 <= nightMinutesFrom zone first n <= Z.max 0 n.
Proof.
  unfold nightMinutesFrom. split; [lia |].
  pose proof (length_filter (fun m => nightAt zone (m * 60000) = true) (seqZ first n)) as Hl.
  rewrite length_seqZ in Hl. lia.
Qed.

Lemma nightMinutesFrom_all zone first n :
  0 <= n ->
  (forall m, first <= m < first + n -> nightAt zone (m * 60000) = true) ->
  nightMinutesFrom zone first n = n.
Proof.
  intros Hn Hall. unfold nightMinutesFrom.
  rewrite filter_all, length_seqZ; [lia |].
  intros m Hm. apply elem_of_seqZ in Hm. apply Hall. lia.
Qed.

Lemma nightMinuteCount_mono_start zone a a' b :
  minuteAligned zone ->
  a' <= a ->
  (forall t, a' <= t < a -> nightAt zone t = true) ->
  nightMinuteCount zone a b <= nightMinuteCount zone a' b.
Proof.
  intros Hal Hle Hnight.
  destruct (Z.le_gt_cases b a) as [Hba | Hab].
  { rewrite (nightMinuteCount_nil zone a b) by assumption.
    unfold nightMinuteCount. lia. }
  rewrite !nightMinuteCount_index by assumption.
  set (A := a / 60000). set (A' := a' / 60000).
  set (n := (b - a + 59999) / 60000). set (n' := (b - a' + 59999) / 60000).
  assert (HA : A' <= A) by (subst A A'; apply Z.div_le_mono; lia).
  assert (Hn : 1 <= n) by (subst n; Z.div_mod_to_equations; lia).
  assert (Hend : A + n - 1 <= A' + n') by (subst A A' n n'; Z.div_mod_to_equations; lia).
  assert (Hlast : A' + n' < A + n -> A' < A)
    by (subst A A' n n'; Z.div_mod_to_equations; lia).
  (* the added minutes, all in the night, then those from [A] on *)
  replace n' with ((A - A') + (A' + n' - A)) by lia.
  rewrite nightMinutesFrom_app by lia.
  replace (A' + (A - A')) with A by lia.
  rewrite (nightMinutesFrom_all zone A' (A - A')); [| lia |].
  2:{ intros m Hm.
      specialize (Hnight (a' + (m - A') * 60000)).
      rewrite (nightAt_aligned zone _ Hal) in Hnight.
      replace ((a' + (m - A') * 60000) / 60000) with m in Hnight.
      - apply Hnight. subst A A'. Z.div_mod_to_equations. lia.
      - rewrite Z.div_add by lia. subst A'. lia. }
  destruct (Z.le_gt_cases n (A' + n' - A)) as [Hfull | Hshort].
  - replace (A' + n' - A) with (n + (A' + n' - A - n)) by lia.
    rewrite nightMinutesFrom_app by lia.
    pose proof (nightMinutesFrom_bounds zone (A + n) (A' + n' - A - n)). lia.
  - replace n with ((A' + n' - A) + 1) at 1 by lia.
    rewrite nightMinutesFrom_app by lia.
    pose proof (nightMinutesFrom_bounds zone (A + (A' + n' - A)) 1). lia.
Qed.

Section Night.

Context `{Runtime}.

Lemma tz_consistent m name m' :
  tz zoneOf m name = Some m' -> isValid m = true -> consistent m'.
Proof.
  unfold tz. destruct (String.eqb name ""); [discriminate |].
  intros [= <-] Hv. now apply updateOffset_consistent.
Qed.

Lemma resolve_punches attendance schedule r :
  resolve attendance schedule = Return r ->
  tz zoneOf (moment (get attendance "punchIn")) (zoneName schedule) = Some (r_punchIn r)
  /\ tz zoneOf (moment (get attendance "punchOut")) (zoneName schedule) = Some (r_punchOut r).
Proof.
  unfold resolve.
  destruct (falsy (get attendance "punchIn") || falsy (get attendance "punchOut"));
    [discriminate |].
  destruct (getScheduledTime _ (start schedule) _) as [ss | |]; cbn [bind];
    try discriminate.
  destruct (getScheduledTime _ (end_ schedule) _) as [se | |]; cbn [bind];
    try discriminate.
  destruct (tz zoneOf (moment (get attendance "punchIn")) _) as [pin |];
    try discriminate.
  destruct (tz zoneOf (moment (get attendance "punchOut")) _) as [pout |];
    try discriminate.
  intros [= <-]. split; reflexivity.
Qed.

Lemma calculateTimeMetrics_resolved attendance schedule m :
  calculateTimeMetrics attendance schedule = Return m ->
  exists r, resolve attendance schedule = Return r.
Proof.
  intros Hm. destruct (resolve attendance schedule) as [r | e |] eqn:Hr.
  - eauto.
  - apply calculateTimeMetrics_throws in Hr. congruence.
  - now apply resolve_no_diverge in Hr.
Qed.

(** The punches in the schedule's zone: a valid one denotes the instant
    that moment read, at the zone's offset, and a punch is valid there as
    soon as its local reading is a time that a Date can hold. *)
Lemma resolved_punch attendance schedule key a p :
  tz zoneOf (moment (get attendance key)) (zoneName schedule) = Some p ->
  punchInstant attendance key = Some a ->
  _z p = zoneOf (zoneName schedule)
  /\ (isValid p = true -> instant p = a /\ consistent p)
  /\ (inRange (a + zoneOf (zoneName schedule) a * 60000) = true -> isValid p = true).
Proof.
  intros Hp Ha. apply punchInstant_moment in Ha as (Hv & Hi).
  destruct (tz_instant _ _ _ Hp) as (Hvalid & Hz).
  split; [exact Hz |]. split.
  - intros Hvp. destruct (Hvalid Hvp) as (_ & Hinst & Hc). split; [congruence | exact Hc].
  - intros Hr. eapply tz_valid; [exact Hp | exact Hv |]. now rewrite Hi.
Qed.

(** The night differential of a returned record is the count of started
    minutes, taken in the schedule's zone, when the punch interval stays
    inside the range of Date. *)
Lemma nightDiffMinutes_counts attendance schedule m a b :
  calculateTimeMetrics attendance schedule = Return m ->
  punchInstant attendance "punchIn" = Some a ->
  punchInstant attendance "punchOut" = Some b ->
  withinDateRange (zoneOf (zoneName schedule)) a b ->
  nightDiffMinutes m = Num (nightMinuteCount (zoneOf (zoneName schedule)) a b).
Proof.
  intros Hm Ha Hb Hrange.
  destruct (calculateTimeMetrics_resolved _ _ _ Hm) as (r & Hr).
  destruct (calculateTimeMetrics_fields _ _ _ Hr) as (m' & Hm' & _ & _ & _ & _ & _ & Hn).
  rewrite Hm in Hm'. injection Hm' as <-.
  apply resolve_punches in Hr as (Hpin & Hpout).
  destruct (resolved_punch _ _ _ _ _ Hpin Ha) as (Hzi & Hi & Hvi).
  destruct (resolved_punch _ _ _ _ _ Hpout Hb) as (_ & Ho & Hvo).
  destruct (Z.le_gt_cases a b) as [Hle | Hgt].
  - specialize (Hvi (Hrange a a ltac:(lia) ltac:(lia))).
    specialize (Hvo (Hrange b b ltac:(lia) ltac:(lia))).
    destruct (Hi Hvi) as (Hia & Hci). destruct (Ho Hvo) as (Hib & Hco).
    rewrite calculateNightDifferential_counts in Hn; try assumption.
    + injection Hn as Hn. now rewrite <- Hn, Hzi, Hia, Hib.
    + now rewrite Hzi, Hia, Hib.
  - rewrite calculateNightDifferential_not_before in Hn.
    + injection Hn as Hn. now rewrite <- Hn, nightMinuteCount_nil by lia.
    + destruct (isBefore (r_punchIn r) (r_punchOut r)) eqn:Hbefore; [| reflexivity].
      apply isBefore_true in Hbefore as (Hv1 & Hv2 & Hlt).
      destruct (Hi Hv1) as (Hia & _). destruct (Ho Hv2) as (Hib & _). lia.
Qed.

(** C8, amended: nightDiffMinutes is the count of the started minutes of
    [punchIn, punchOut) (the instants punchIn, punchIn + 1 min, ...
    before punchOut) whose local clock hour in the schedule's zone is at
    least 22 or below 6.  It is the count of whole minutes when the
    interval is a whole number of minutes long, and at most one more
    otherwise.  It does not decrease when the punch interval is extended:
    by a later punch-out, and by an earlier punch-in with the added
    interval entirely within the nightly window, in a zone whose offset
    changes on whole minutes.  (Punch intervals inside the range of Date.) *)
Theorem nightDiff_counts_and_grows schedule attendance extended m m' a b a' b' :
  calculateTimeMetrics attendance schedule = Return m ->
  calculateTimeMetrics extended schedule = Return m' ->
  punchInstant attendance "punchIn" = Some a ->
  punchInstant attendance "punchOut" = Some b ->
  punchInstant extended "punchIn" = Some a' ->
  punchInstant extended "punchOut" = Some b' ->
  withinDateRange (zoneOf (zoneName schedule)) a b ->
  withinDateRange (zoneOf (zoneName schedule)) a' b' ->
  exists night night',
    nightDiffMinutes m = Num night /\ nightDiffMinutes m' = Num night'
    /\ night = nightMinuteCount (zoneOf (zoneName schedule)) a b
    /\ wholeNightMinutes (zoneOf (zoneName schedule)) a b <= night
       <= wholeNightMinutes (zoneOf (zoneName schedule)) a b + 1
    /\ ((b - a) mod 60000 = 0 ->
        night = wholeNightMinutes (zoneOf (zoneName schedule)) a b)
    /\ (a' <= a -> b <= b' ->
        (a' < a ->
         minuteAligned (zoneOf (zoneName schedule))
         /\ forall t, a' <= t < a -> nightAt (zoneOf (zoneName schedule)) t = true) ->
        night <= night').
Proof.
  intros Hm Hm' Ha Hb Ha' Hb' Hrange Hrange'.
  do 2 eexists.
  split; [eapply nightDiffMinutes_counts; eassumption |].
  split; [eapply nightDiffMinutes_counts; eassumption |].
  split; [reflexivity |].
  destruct (nightMinuteCount_whole (zoneOf (zoneName schedule)) a b) as (Hbounds & Hwhole).
  split; [exact Hbounds |]. split; [exact Hwhole |].
  intros Hstart Hend Hadded.
  transitivity (nightMinuteCount (zoneOf (zoneName schedule)) a' b).
  - destruct (Z.eq_dec a' a) as [-> | Hne]; [lia |].
    destruct (Hadded ltac:(lia)) as (Hal & Hnight).
    now apply nightMinuteCount_mono_start.
  - now apply nightMinuteCount_mono_end.
Qed.

End Night.

Lemma withinDateRange_fixed o a b :
  - maxTime <= a + o * 60000 -> b + o * 60000 <= maxTime ->
  withinDateRange (fixedZone o) a b.
Proof.
  intros Ha Hb t s Ht Hs. apply inRange_true. unfold fixedZone. lia.
Qed.

(** C8, as stated, fails: thirty seconds and a half of work at 22:15 hold
    no whole minute, and the calculator returns 1 night-differential
    minute for them. *)
Lemma half_minute_counts_as_one :
  exists m,
    calculateTimeMetrics (H := Reference.runtime) halfMinutePunches daySchedule = Return m
    /\ punchInstant (H := Reference.runtime) halfMinutePunches "punchIn"
       = Some 1759328100000
    /\ punchInstant (H := Reference.runtime) halfMinutePunches "punchOut"
       = Some 1759328130500
    /\ wholeMinuteMarks 1759328100000 1759328130500 = []
    /\ wholeNightMinutes (Reference.zoneTable "Asia/Manila") 1759328100000 1759328130500
       = 0
    /\ nightDiffMinutes m = Num 1
    /\ nightDiffMinutes m
       <> Num (wholeNightMinutes (Reference.zoneTable "Asia/Manila")
                 1759328100000 1759328130500).
Proof.
  eexists. split; [vm_compute; reflexivity |].
  split; [vm_compute; reflexivity |]. split; [vm_compute; reflexivity |].
  split; [vm_compute; reflexivity |]. split; [vm_compute; reflexivity |].
  split; [reflexivity |]. vm_compute. discriminate.
Qed.

(** The punches from 23:00 to 05:00, and extended to 22:30 and 05:30:
    360 and 420 night-differential minutes. *)
Lemma nightDiff_counts_and_grows_witness :
  exists m m',
    calculateTimeMetrics (H := Reference.runtime) lateNightPunches daySchedule = Return m
    /\ calculateTimeMetrics (H := Reference.runtime) widerNightPunches daySchedule
       = Return m'
    /\ punchInstant (H := Reference.runtime) lateNightPunches "punchIn"
       = Some 1759330800000
    /\ punchInstant (H := Reference.runtime) lateNightPunches "punchOut"
       = Some 1759352400000
    /\ punchInstant (H := Reference.runtime) widerNightPunches "punchIn"
       = Some 1759329000000
    /\ punchInstant (H := Reference.runtime) widerNightPunches "punchOut"
       = Some 1759354200000
    /\ withinDateRange (Reference.zoneTable "Asia/Manila") 1759330800000 1759352400000
    /\ withinDateRange (Reference.zoneTable "Asia/Manila") 1759329000000 1759354200000
    /\ minuteAligned (Reference.zoneTable "Asia/Manila")
    /\ (forall t, 1759329000000 <= t < 1759330800000 ->
        nightAt (Reference.zoneTable "Asia/Manila") t = true)
    /\ nightDiffMinutes m = Num 360 /\ nightDiffMinutes m' = Num 420
    /\ exists night night',
         nightDiffMinutes m = Num night /\ nightDiffMinutes m' = Num night'
         /\ night = wholeNightMinutes (Reference.zoneTable "Asia/Manila")
                      1759330800000 1759352400000
         /\ night <= night'.
Proof.
  assert (Hrange : withinDateRange (Reference.zoneTable "Asia/Manila")
                     1759330800000 1759352400000)
    by (apply (withinDateRange_fixed 480); unfold maxTime; lia).
  assert (Hrange' : withinDateRange (Reference.zoneTable "Asia/Manila")
                      1759329000000 1759354200000)
    by (apply (withinDateRange_fixed 480); unfold maxTime; lia).
  assert (Haligned : minuteAligned (Reference.zoneTable "Asia/Manila"))
    by (intros t; reflexivity).
  assert (Hnight : forall t, 1759329000000 <= t < 1759330800000 ->
                             nightAt (Reference.zoneTable "Asia/Manila") t = true).
  { intros t Ht. unfold nightAt, localHour.
    change (Reference.zoneTable "Asia/Manila" t) with 480.
    assert ((t + 480 * 60000) / 3600000 = 488710) as ->
      by (Z.div_mod_to_equations; lia).
    reflexivity. }
  do 2 eexists.
  split; [vm_compute; reflexivity |]. split; [vm_compute; reflexivity |].
  split; [vm_compute; reflexivity |]. split; [vm_compute; reflexivity |].
  split; [vm_compute; reflexivity |]. split; [vm_compute; reflexivity |].
  split; [exact Hrange |]. split; [exact Hrange' |].
  split; [exact Haligned |]. split; [exact Hnight |].
  split; [reflexivity |]. split; [reflexivity |].
  destruct (nightDiff_counts_and_grows (H := Reference.runtime) daySchedule
              lateNightPunches widerNightPunches _ _
              1759330800000 1759352400000 1759329000000 1759354200000
              ltac:(vm_compute; reflexivity) ltac:(vm_compute; reflexivity)
              ltac:(vm_compute; reflexivity) ltac:(vm_compute; reflexivity)
              ltac:(vm_compute; reflexivity) ltac:(vm_compute; reflexivity)
              Hrange Hrange')
    as (night & night' & Hn & Hn' & _ & _ & Hwhole & Hgrows).
  exists night, night'. split; [exact Hn |]. split; [exact Hn' |].
  split; [apply Hwhole; reflexivity |].
  apply Hgrows; [lia | lia |]. intros _. split; [exact Haligned | exact Hnight].
Defined.

(** Why the amended claim keeps the zones whose offset changes on whole
    minutes: where the offset changes within the minute, an earlier
    punch-in moves the instants that the scan tests, and the count can
    drop although the added interval is all in the nightly window. *)
Example earlier_start_in_unaligned_zone :
  nightMinuteCount unalignedZone 0 600000 = 10
  /\ nightMinuteCount unalignedZone (-30000) 600000 = 1
  /\ forall t, -30000 <= t < 0 -> nightAt unalignedZone t = true.
Proof.
  split; [vm_compute; reflexivity |]. split; [vm_compute; reflexivity |].
  intros t Ht. unfold nightAt, localHour, unalignedZone.
  destruct (Z.ltb_spec t 0); [| lia]. rewrite orb_true_r.
  assert ((t + 0 * 60000) / 3600000 = -1) as -> by (Z.div_mod_to_equations; lia).
  reflexivity.
Qed.

(** Why the punch interval has to stay inside the range of Date: of
    these two punches the second has no valid moment in Manila, so that
    the time worked is NaN and no minute is scanned, where 120 started
    minutes lie in the nightly window. *)
Example punches_at_the_date_limit :
  exists m,
    calculateTimeMetrics (H := Reference.runtime) dateLimitPunches daySchedule = Return m
    /\ punchInstant (H := Reference.runtime) dateLimitPunches "punchIn"
       = Some 8639999967600000
    /\ punchInstant (H := Reference.runtime) dateLimitPunches "punchOut"
       = Some 8639999974800000
    /\ totalWorkedMinutes m = NaN
    /\ nightDiffMinutes m = Num 0
    /\ nightMinuteCount (Reference.zoneTable "Asia/Manila")
         8639999967600000 8639999974800000 = 120.
Proof.
  eexists. split; [vm_compute; reflexivity |].
  split; [vm_compute; reflexivity |]. split; [vm_compute; reflexivity |].
  split; [reflexivity |]. split; [reflexivity |]. vm_compute. reflexivity.
Qed.

(** * Further properties of the calculator *)





Section Accounting.

Context `{Runtime}.


(** X2: overtime and undertime exclude each other, whatever the input:
    when the overtime minutes of the result are a positive number the
    undertime minutes are 0, and when the undertime minutes are a positive
    number the overtime minutes are 0. *)
Theorem overtime_excludes_undertime attendance schedule m :
  calculateTimeMetrics attendance schedule = Return m ->
  (forall overtime,
      overtimeMinutes m = Num overtime -> 0 < overtime -> undertimeMinutes m = Num 0)
  /\ (forall undertime,
         undertimeMinutes m = Num undertime -> 0 < undertime ->
         overtimeMinutes m = Num 0).
Proof.
  intros Hm.
  destruct (calculateTimeMetrics_resolved _ _ _ Hm) as (r & Hr).
  destruct (calculateTimeMetrics_fields _ _ _ Hr)
    as (m' & Hm' & _ & Hunder & _ & _ & Hovertime & _).
  rewrite Hm in Hm'. injection Hm' as <-.
  rewrite Hunder, Hovertime.
  unfold calculateUndertime, calculateOvertime, isSameOrAfter, isSameOrBefore,
    isSame, isAfter, isBefore, diff.
  destruct (isValid (r_punchOut r)), (isValid (r_shiftEnd r)); simpl;
    try (split; intros; discriminate).
  split; intros n; by_instants; intros [= <-] Hpos; try lia; try reflexivity;
    exfalso; revert Hpos;
    match goal with
    | |- 0 < Z.quot ?x 60000 -> False =>
        pose proof (Z.quot_le_mono x 0 60000 ltac:(lia) ltac:(lia)) as Hq;
        rewrite Z.quot_0_l in Hq by lia; lia
    end.
Qed.

Lemma quot_minutes_split3 x y z :
  0 <= x -> 0 <= y -> 0 <= z ->
  Z.quot (x + y + z) 60000 - 2
  <= Z.quot x 60000 + Z.quot y 60000 + Z.quot z 60000
  <= Z.quot (x + y + z) 60000.
Proof.
  intros Hx Hy Hz. rewrite !Z.quot_div_nonneg by lia.
  Z.div_mod_to_equations. lia.
Qed.

Lemma quot_minutes_split2 x y :
  0 <= x -> 0 <= y ->
  Z.quot (x + y) 60000 - 1 <= Z.quot x 60000 + Z.quot y 60000 <= Z.quot (x + y) 60000.
Proof.
  intros Hx Hy. rewrite !Z.quot_div_nonneg by lia.
  Z.div_mod_to_equations. lia.
Qed.

(** X3: a punch pair inside the shift (shiftStart <= punchIn <= punchOut
    <= shiftEnd) accounts for the whole shift: lateMinutes + regularMinutes
    + undertimeMinutes is the scheduled minutes, less at most 2 minutes lost
    to the truncation of each part. *)
Theorem shift_accounted_inside attendance schedule r :
  resolve attendance schedule = Return r ->
  isSameOrAfter (r_punchIn r) (r_shiftStart r) = true ->
  isSameOrAfter (r_punchOut r) (r_punchIn r) = true ->
  isSameOrBefore (r_punchOut r) (r_shiftEnd r) = true ->
  exists m late regular undertime scheduled,
    calculateTimeMetrics attendance schedule = Return m
    /\ lateMinutes m = Num late /\ regularMinutes m = Num regular
    /\ undertimeMinutes m = Num undertime /\ scheduledMinutes r = Num scheduled
    /\ scheduled - 2 <= late + regular + undertime <= scheduled.
Proof.
  intros Hr Hstart Hout Hend.
  apply isSameOrAfter_true in Hstart as (Hvi & Hvs & Hs).
  apply isSameOrAfter_true in Hout as (Hvo & _ & Ho).
  apply isSameOrBefore_true in Hend as (_ & Hve & He).
  destruct (calculateTimeMetrics_fields _ _ _ Hr)
    as (m & Hm & Hlate & Hunder & _ & Hregular & _).
  unfold scheduledMinutes in *.
  rewrite calculateLate_valid in Hlate by assumption.
  rewrite calculateUndertime_valid in Hunder by assumption.
  rewrite calculateRegularHours_valid in Hregular by assumption.
  rewrite diff_valid by assumption.
  exists m. do 4 eexists. split; [exact Hm |].
  split; [exact Hlate |]. split; [exact Hregular |]. split; [exact Hunder |].
  split; [reflexivity |]. cbv zeta.
  set (i := instant (r_punchIn r)) in *. set (o := instant (r_punchOut r)) in *.
  set (s := instant (r_shiftStart r)) in *. set (e := instant (r_shiftEnd r)) in *.
  rewrite (Z.max_l i s), (Z.min_l o e) by lia.
  pose proof (quot_minutes_split3 (i - s) (o - i) (e - o)
                ltac:(lia) ltac:(lia) ltac:(lia)) as Hsplit.
  replace (i - s + (o - i) + (e - o)) with (e - s) in Hsplit by lia.
  pose proof (quot_minutes_le (o - i) (e - s) ltac:(lia)).
  assert (Hl : (if i <=? s then 0 else Z.quot (i - s) 60000) = Z.quot (i - s) 60000).
  { destruct (Z.leb_spec i s); [| reflexivity].
    replace (i - s) with 0 by lia. reflexivity. }
  assert (Hu : (if e <=? o then 0 else Z.quot (e - o) 60000) = Z.quot (e - o) 60000).
  { destruct (Z.leb_spec e o); [| reflexivity].
    replace (e - o) with 0 by lia. reflexivity. }
  assert (Hg : (if o <=? i then 0
                else Z.min (Z.quot (o - i) 60000) (Z.quot (e - s) 60000))
               = Z.quot (o - i) 60000).
  { destruct (Z.leb_spec o i); [| lia].
    replace (o - i) with 0 by lia. reflexivity. }
  rewrite Hl, Hu, Hg. exact Hsplit.
Qed.

(** X4: when the punch-in lies in the shift and the punch-out at or after
    its end (shiftStart <= punchIn <= shiftEnd <= punchOut), the time
    worked is regular time plus overtime, less at most 1 minute lost to
    truncation. *)
Theorem worked_is_regular_plus_overtime attendance schedule r :
  resolve attendance schedule = Return r ->
  isSameOrAfter (r_punchIn r) (r_shiftStart r) = true ->
  isSameOrBefore (r_punchIn r) (r_shiftEnd r) = true ->
  isSameOrAfter (r_punchOut r) (r_shiftEnd r) = true ->
  exists m regular overtime total,
    calculateTimeMetrics attendance schedule = Return m
    /\ regularMinutes m = Num regular /\ overtimeMinutes m = Num overtime
    /\ totalWorkedMinutes m = Num total
    /\ total - 1 <= regular + overtime <= total.
Proof.
  intros Hr Hstart Hin Hout.
  apply isSameOrAfter_true in Hstart as (Hvi & Hvs & Hs).
  apply isSameOrBefore_true in Hin as (_ & Hve & Hi).
  apply isSameOrAfter_true in Hout as (Hvo & _ & Ho).
  destruct (calculateTimeMetrics_fields _ _ _ Hr)
    as (m & Hm & _ & _ & Htotal & Hregular & Hovertime & _).
  unfold scheduledMinutes in *.
  rewrite calculateOvertime_valid in Hovertime by assumption.
  rewrite calculateRegularHours_valid in Hregular by assumption.
  rewrite diff_valid in Htotal by assumption.
  exists m. do 3 eexists. split; [exact Hm |].
  split; [exact Hregular |]. split; [exact Hovertime |]. split; [exact Htotal |].
  cbv zeta.
  set (i := instant (r_punchIn r)) in *. set (o := instant (r_punchOut r)) in *.
  set (s := instant (r_shiftStart r)) in *. set (e := instant (r_shiftEnd r)) in *.
  rewrite (Z.max_l i s), (Z.min_r o e) by lia.
  pose proof (quot_minutes_split2 (e - i) (o - e) ltac:(lia) ltac:(lia)) as Hsplit.
  replace (e - i + (o - e)) with (o - i) in Hsplit by lia.
  pose proof (quot_minutes_le (e - i) (e - s) ltac:(lia)).
  assert (Hg : (if e <=? i then 0
                else Z.min (Z.quot (e - i) 60000) (Z.quot (e - s) 60000))
               = Z.quot (e - i) 60000).
  { destruct (Z.leb_spec e i); [| lia].
    replace (e - i) with 0 by lia. reflexivity. }
  assert (Ho' : (if o <=? e then 0 else Z.quot (o - e) 60000) = Z.quot (o - e) 60000).
  { destruct (Z.leb_spec o e); [| reflexivity].
    replace (o - e) with 0 by lia. reflexivity. }
  rewrite Hg, Ho'. exact Hsplit.
Qed.

End Accounting.


(** The day scenario: 90 overtime minutes, no undertime. *)
Lemma overtime_excludes_undertime_witness :
  exists m,
    calculateTimeMetrics (H := Reference.runtime) dayPunches daySchedule = Return m
    /\ overtimeMinutes m = Num 90 /\ 0 < 90
    /\ undertimeMinutes m = Num 0.
Proof.
  eexists. split; [vm_compute; reflexivity |].
  split; [reflexivity |]. split; [lia |].
  eapply (overtime_excludes_undertime (H := Reference.runtime) dayPunches daySchedule);
    [vm_compute; reflexivity | reflexivity | lia].
Defined.

(** 09:40:30 to 17:20:45 under 09:00-18:00: 40 + 460 + 39 of 540 minutes. *)
Lemma shift_accounted_inside_witness :
  exists r,
    resolve (H := Reference.runtime) insideShiftPunches daySchedule = Return r
    /\ isSameOrAfter (r_punchIn r) (r_shiftStart r) = true
    /\ isSameOrAfter (r_punchOut r) (r_punchIn r) = true
    /\ isSameOrBefore (r_punchOut r) (r_shiftEnd r) = true
    /\ exists m late regular undertime scheduled,
         calculateTimeMetrics (H := Reference.runtime) insideShiftPunches daySchedule
         = Return m
         /\ lateMinutes m = Num late /\ regularMinutes m = Num regular
         /\ undertimeMinutes m = Num undertime /\ scheduledMinutes r = Num scheduled
         /\ scheduled - 2 <= late + regular + undertime <= scheduled.
Proof.
  eexists. split; [vm_compute; reflexivity |].
  split; [vm_compute; reflexivity |]. split; [vm_compute; reflexivity |].
  split; [vm_compute; reflexivity |].
  eapply (shift_accounted_inside (H := Reference.runtime) insideShiftPunches daySchedule);
    vm_compute; reflexivity.
Defined.

Lemma worked_is_regular_plus_overtime_witness :
  exists r,
    resolve (H := Reference.runtime) dayPunches daySchedule = Return r
    /\ isSameOrAfter (r_punchIn r) (r_shiftStart r) = true
    /\ isSameOrBefore (r_punchIn r) (r_shiftEnd r) = true
    /\ isSameOrAfter (r_punchOut r) (r_shiftEnd r) = true
    /\ exists m regular overtime total,
         calculateTimeMetrics (H := Reference.runtime) dayPunches daySchedule = Return m
         /\ regularMinutes m = Num regular /\ overtimeMinutes m = Num overtime
         /\ totalWorkedMinutes m = Num total
         /\ total - 1 <= regular + overtime <= total.
Proof.
  eexists. split; [vm_compute; reflexivity |].
  split; [vm_compute; reflexivity |]. split; [vm_compute; reflexivity |].
  split; [vm_compute; reflexivity |].
  eapply (worked_is_regular_plus_overtime (H := Reference.runtime) dayPunches daySchedule);
    vm_compute; reflexivity.
Defined.

(** ** More on the night differential *)

Lemma nightMinuteCount_split zone a k c :
  0 <= k -> a + k * 60000 <= c ->
  nightMinuteCount zone a c
  = nightMinuteCount zone a (a + k * 60000) + nightMinuteCount zone (a + k * 60000) c.
Proof.
  intros Hk Hc. unfold nightMinuteCount, minuteMarks.
  replace ((c - a + 59999) / 60000)
    with (k + (c - (a + k * 60000) + 59999) / 60000).
  2:{ replace (c - a + 59999) with (c - (a + k * 60000) + 59999 + k * 60000) by lia.
      rewrite Z.div_add by lia. lia. }
  replace ((a + k * 60000 - a + 59999) / 60000) with k
    by (Z.div_mod_to_equations; lia).
  rewrite seqZ_app, fmap_app, filter_app, length_app; [| lia |].
  2:{ Z.div_mod_to_equations. lia. }
  replace (0 + k) with (k + 0) by lia.
  rewrite <- fmap_add_seqZ, <- list_fmap_compose.
  rewrite Nat2Z.inj_add. f_equal. do 3 f_equal.
  apply list_fmap_ext. intros _ j _. simpl. lia.
Qed.

Section NightMore.

Context `{Runtime}.

(** The scan counts at most one minute for each started minute between
    the current time and the end, whether or not it stays inside the range
    of Date. *)
Lemma nightScan_at_most fuel : forall cur stop acc,
  (isBefore cur stop = true ->
   (instant stop - instant cur + 59999) / 60000 <= Z.of_nat fuel) ->
  exists n,
    nightScan fuel cur stop (Num acc) = Some (Num n)
    /\ acc <= n
       <= acc + (if isBefore cur stop
                 then (instant stop - instant cur + 59999) / 60000 else 0).
Proof.
  induction fuel as [| fuel IH]; intros cur stop acc Hfuel; simpl.
  - destruct (isBefore cur stop) eqn:Hb.
    + specialize (Hfuel eq_refl).
      apply isBefore_true in Hb as (_ & _ & Hlt).
      assert (1 <= (instant stop - instant cur + 59999) / 60000)
        by (apply Z.div_le_lower_bound; lia).
      lia.
    + exists acc. split; [reflexivity | lia].
  - destruct (isBefore cur stop) eqn:Hb.
    + specialize (Hfuel eq_refl).
      apply isBefore_true in Hb as (Hv & _ & Hlt).
      assert (Hone : 1 <= (instant stop - instant cur + 59999) / 60000)
        by (apply Z.div_le_lower_bound; lia).
      assert (Hnext : isBefore (add1minute cur) stop = true ->
                      instant (add1minute cur) = instant cur + 60000).
      { intros Hb'. apply isBefore_true in Hb' as (Hv' & _ & _).
        destruct (add1minute_instant cur) as (Hi & _).
        now destruct (Hi Hv') as (_ & -> & _). }
      assert (Hrest : forall acc',
                 exists n,
                   nightScan fuel (add1minute cur) stop (Num acc') = Some (Num n)
                   /\ acc' <= n
                      <= acc' + (instant stop - instant cur + 59999) / 60000 - 1).
      { intros acc'.
        destruct (IH (add1minute cur) stop acc') as (n & Hn & Hle).
        - intros Hb'. rewrite (Hnext Hb'). now apply steps_next.
        - exists n. split; [exact Hn |].
          destruct (isBefore (add1minute cur) stop) eqn:Hb'; [| lia].
          rewrite (Hnext eq_refl) in Hle.
          replace (instant stop - (instant cur + 60000) + 59999)
            with (instant stop - instant cur + 59999 + (-1) * 60000) in Hle by lia.
          rewrite Z.div_add in Hle by lia. lia. }
      destruct (ge (get_hour cur) (Num 22) || lt (get_hour cur) (Num 6)); simpl.
      * destruct (Hrest (acc + 1)) as (n & Hn & Hle). exists n. split; [exact Hn | lia].
      * destruct (Hrest acc) as (n & Hn & Hle). exists n. split; [exact Hn | lia].
    + exists acc. split; [reflexivity | lia].
Qed.

(** X5: the night differential never exceeds the time worked by more than
    one minute: for readable punches with punchOut at or after punchIn,
    whose local readings in the schedule's zone are times that a Date can
    hold, 0 <= nightDiffMinutes <= totalWorkedMinutes + 1 (each started
    minute is scanned, while the time worked is truncated to whole
    minutes). *)
Theorem nightDiff_at_most_worked_plus_one attendance schedule m a b :
  calculateTimeMetrics attendance schedule = Return m ->
  punchInstant attendance "punchIn" = Some a ->
  punchInstant attendance "punchOut" = Some b ->
  a <= b ->
  inRange (a + zoneOf (zoneName schedule) a * 60000) = true ->
  inRange (b + zoneOf (zoneName schedule) b * 60000) = true ->
  exists night total,
    nightDiffMinutes m = Num night /\ totalWorkedMinutes m = Num total
    /\ 0 <= night <= total + 1.
Proof.
  intros Hm Ha Hb Hle Hra Hrb.
  destruct (calculateTimeMetrics_resolved _ _ _ Hm) as (r & Hr).
  destruct (calculateTimeMetrics_fields _ _ _ Hr)
    as (m' & Hm' & _ & _ & Htotal & _ & _ & Hnight).
  rewrite Hm in Hm'. injection Hm' as <-.
  apply resolve_punches in Hr as (Hpin & Hpout).
  destruct (resolved_punch _ _ _ _ _ Hpin Ha) as (_ & Hi & Hvi).
  destruct (resolved_punch _ _ _ _ _ Hpout Hb) as (_ & Ho & Hvo).
  specialize (Hvi Hra). specialize (Hvo Hrb).
  destruct (Hi Hvi) as (Hia & Hci). destruct (Ho Hvo) as (Hib & Hco).
  rewrite diff_valid in Htotal by assumption.
  rewrite Hia, Hib in Htotal.
  unfold calculateNightDifferential in Hnight. cbv zeta in Hnight.
  rewrite !clone_consistent in Hnight by assumption.
  destruct (nightScan_at_most (steps (r_punchIn r) (r_punchOut r))
              (r_punchIn r) (r_punchOut r) 0) as (n & Hn & Hbounds).
  { intros _. apply steps_enough. }
  rewrite Hn in Hnight. injection Hnight as Hnight.
  exists n. eexists. split; [now symmetry |]. split; [exact Htotal |].
  rewrite Hia, Hib in Hbounds.
  rewrite Z.quot_div_nonneg by lia.
  destruct (isBefore (r_punchIn r) (r_punchOut r)).
  - revert Hbounds. Z.div_mod_to_equations. lia.
  - assert (0 <= (b - a) / 60000) by (apply Z.div_pos; lia). lia.
Qed.

(** X6: the night differential adds up over consecutive punch pairs: when
    a punch interval (inside the range of Date) is cut a whole number of
    minutes after its punch-in, the night-differential minutes of the two
    parts sum to those of the whole (same schedule). *)
Theorem nightDiff_adds_up schedule first second whole m1 m2 m a b c k :
  calculateTimeMetrics first schedule = Return m1 ->
  calculateTimeMetrics second schedule = Return m2 ->
  calculateTimeMetrics whole schedule = Return m ->
  punchInstant first "punchIn" = Some a -> punchInstant first "punchOut" = Some b ->
  punchInstant second "punchIn" = Some b -> punchInstant second "punchOut" = Some c ->
  punchInstant whole "punchIn" = Some a -> punchInstant whole "punchOut" = Some c ->
  0 <= k -> b = a + k * 60000 -> b <= c ->
  withinDateRange (zoneOf (zoneName schedule)) a c ->
  exists n1 n2 n,
    nightDiffMinutes m1 = Num n1 /\ nightDiffMinutes m2 = Num n2
    /\ nightDiffMinutes m = Num n /\ n = n1 + n2.
Proof.
  intros H1 H2 Hw Ha1 Hb1 Hb2 Hc2 Haw Hcw Hk -> Hc Hrange.
  do 3 eexists.
  split; [eapply nightDiffMinutes_counts; try eassumption;
          eapply withinDateRange_sub; [exact Hrange | lia | lia] |].
  split; [eapply nightDiffMinutes_counts; try eassumption;
          eapply withinDateRange_sub; [exact Hrange | lia | lia] |].
  split; [eapply nightDiffMinutes_counts; eassumption |].
  now apply nightMinuteCount_split.
Qed.

End NightMore.

Lemma nightDiff_at_most_worked_plus_one_witness :
  exists m,
    calculateTimeMetrics (H := Reference.runtime) wholeDayPunches daySchedule = Return m
    /\ punchInstant (H := Reference.runtime) wholeDayPunches "punchIn"
       = Some 1759300632000
    /\ punchInstant (H := Reference.runtime) wholeDayPunches "punchOut"
       = Some 1759387032000
    /\ 1759300632000 <= 1759387032000
    /\ inRange (1759300632000
                + Reference.zoneTable "Asia/Manila" 1759300632000 * 60000) = true
    /\ inRange (1759387032000
                + Reference.zoneTable "Asia/Manila" 1759387032000 * 60000) = true
    /\ exists night total,
         nightDiffMinutes m = Num night /\ totalWorkedMinutes m = Num total
         /\ 0 <= night <= total + 1.
Proof.
  eexists. split; [vm_compute; reflexivity |].
  split; [vm_compute; reflexivity |]. split; [vm_compute; reflexivity |].
  split; [lia |]. split; [reflexivity |]. split; [reflexivity |].
  apply (nightDiff_at_most_worked_plus_one (H := Reference.runtime)
           wholeDayPunches daySchedule _ 1759300632000 1759387032000);
    [vm_compute; reflexivity | vm_compute; reflexivity | vm_compute; reflexivity | lia
    | reflexivity | reflexivity].
Defined.

(** 21:00 to 07:00 cut at 23:30: 90 and 390 of the 480 night minutes. *)
Lemma nightDiff_adds_up_witness :
  exists m1 m2 m,
    calculateTimeMetrics (H := Reference.runtime) eveningPunches daySchedule = Return m1
    /\ calculateTimeMetrics (H := Reference.runtime) afterEveningPunches daySchedule
       = Return m2
    /\ calculateTimeMetrics (H := Reference.runtime) overnightPunches daySchedule
       = Return m
    /\ punchInstant (H := Reference.runtime) eveningPunches "punchIn"
       = Some 1759323600000
    /\ punchInstant (H := Reference.runtime) eveningPunches "punchOut"
       = Some 1759332600000
    /\ punchInstant (H := Reference.runtime) afterEveningPunches "punchIn"
       = Some 1759332600000
    /\ punchInstant (H := Reference.runtime) afterEveningPunches "punchOut"
       = Some 1759359600000
    /\ punchInstant (H := Reference.runtime) overnightPunches "punchIn"
       = Some 1759323600000
    /\ punchInstant (H := Reference.runtime) overnightPunches "punchOut"
       = Some 1759359600000
    /\ 0 <= 150 /\ 1759332600000 = 1759323600000 + 150 * 60000
    /\ 1759332600000 <= 1759359600000
    /\ withinDateRange (Reference.zoneTable "Asia/Manila") 1759323600000 1759359600000
    /\ nightDiffMinutes m1 = Num 90 /\ nightDiffMinutes m2 = Num 390
    /\ exists n1 n2 n,
         nightDiffMinutes m1 = Num n1 /\ nightDiffMinutes m2 = Num n2
         /\ nightDiffMinutes m = Num n /\ n = n1 + n2.
Proof.
  assert (Hrange : withinDateRange (Reference.zoneTable "Asia/Manila")
                     1759323600000 1759359600000)
    by (apply (withinDateRange_fixed 480); unfold maxTime; lia).
  do 3 eexists.
  split; [vm_compute; reflexivity |]. split; [vm_compute; reflexivity |].
  split; [vm_compute; reflexivity |]. split; [vm_compute; reflexivity |].
  split; [vm_compute; reflexivity |]. split; [vm_compute; reflexivity |].
  split; [vm_compute; reflexivity |]. split; [vm_compute; reflexivity |].
  split; [vm_compute; reflexivity |]. split; [lia |]. split; [lia |].
  split; [lia |]. split; [exact Hrange |]. split; [reflexivity |].
  split; [reflexivity |].
  apply (nightDiff_adds_up (H := Reference.runtime) daySchedule
           eveningPunches afterEveningPunches overnightPunches _ _ _
           1759323600000 1759332600000 1759359600000 150);
    [vm_compute; reflexivity | vm_compute; reflexivity | vm_compute; reflexivity
    | vm_compute; reflexivity | vm_compute; reflexivity | vm_compute; reflexivity
    | vm_compute; reflexivity | vm_compute; reflexivity | vm_compute; reflexivity
    | lia | lia | lia | exact Hrange].
Defined.

(** *** A whole day *)

Lemma nightMinuteOfDay_period x : nightMinuteOfDay (x + 1440) = nightMinuteOfDay x.
Proof.
  unfold nightMinuteOfDay. f_equal.
  replace (x + 1440) with (x + 24 * 60) by lia.
  rewrite Z.div_add by lia.
  replace (x / 60 + 24) with (x / 60 + 1 * 24) by lia.
  now rewrite Z.mod_add by lia.
Qed.

Lemma nightMinutesOfDayFrom_step s :
  nightMinutesOfDayFrom (s + 1) = nightMinutesOfDayFrom s.
Proof.
  unfold nightMinutesOfDayFrom.
  pose proof (seqZ_app s 1 1440 ltac:(lia) ltac:(lia)) as Hfront.
  pose proof (seqZ_app s 1440 1 ltac:(lia) ltac:(lia)) as Hback.
  change (1 + 1440) with 1441 in Hfront. change (1440 + 1) with 1441 in Hback.
  rewrite Hfront in Hback.
  apply (f_equal (fun l => length (filter (fun x => nightMinuteOfDay x = true) l)))
    in Hback.
  rewrite !filter_app, !length_app in Hback.
  rewrite (seqZ_cons s 1), (seqZ_cons (s + 1440) 1) in Hback by lia.
  change (Z.pred 1) with 0 in Hback. rewrite !seqZ_nil in Hback by lia.
  rewrite !filter_cons, !filter_nil, nightMinuteOfDay_period in Hback.
  destruct (decide (nightMinuteOfDay s = true)); simpl in Hback; lia.
Qed.

Lemma nightMinutesOfDayFrom_480 s : nightMinutesOfDayFrom s = 480.
Proof.
  assert (Hnat : forall n : nat,
             nightMinutesOfDayFrom (Z.of_nat n) = 480
             /\ nightMinutesOfDayFrom (- Z.of_nat n) = 480).
  { induction n as [| n (IHp & IHn)].
    - split; vm_compute; reflexivity.
    - split.
      + replace (Z.of_nat (S n)) with (Z.of_nat n + 1) by lia.
        now rewrite nightMinutesOfDayFrom_step.
      + rewrite <- (nightMinutesOfDayFrom_step (- Z.of_nat (S n))).
        replace (- Z.of_nat (S n) + 1) with (- Z.of_nat n) by lia. exact IHn. }
  destruct (Z.le_gt_cases 0 s).
  - rewrite <- (Z2Nat.id s) by assumption. apply Hnat.
  - replace s with (- Z.of_nat (Z.to_nat (- s))) by lia. apply Hnat.
Qed.

Lemma nightMinuteCount_whole_day zone o a :
  (forall t, zone t = o) ->
  nightMinuteCount zone a (a + 86400000) = 480.
Proof.
  intros Hzone.
  assert (Hal : minuteAligned zone) by (intros t; now rewrite !Hzone).
  rewrite nightMinuteCount_index by assumption.
  replace ((a + 86400000 - a + 59999) / 60000) with 1440
    by (Z.div_mod_to_equations; lia).
  rewrite <- (nightMinutesOfDayFrom_480 (o + a / 60000)).
  unfold nightMinutesFrom, nightMinutesOfDayFrom. f_equal.
  rewrite <- fmap_add_seqZ, length_filter_fmap.
  f_equal. apply list_filter_iff. intros m.
  unfold nightAt, localHour, nightMinuteOfDay. rewrite Hzone.
  replace (m * 60000 + o * 60000) with ((o + m) * 60000) by lia.
  change 3600000 with (60 * 60000).
  now rewrite Z.div_mul_cancel_r by lia.
Qed.

Section WholeDay.

Context `{Runtime}.

(** X7: in a zone of constant offset, a punch pair that lasts exactly 24
    hours, with local readings that a Date can hold, has 480
    night-differential minutes, at whatever instant it starts. *)
Theorem whole_day_has_480_night_minutes attendance schedule m a o :
  calculateTimeMetrics attendance schedule = Return m ->
  punchInstant attendance "punchIn" = Some a ->
  punchInstant attendance "punchOut" = Some (a + 86400000) ->
  (forall t, zoneOf (zoneName schedule) t = o) ->
  inRange (a + o * 60000) = true -> inRange (a + 86400000 + o * 60000) = true ->
  nightDiffMinutes m = Num 480.
Proof.
  intros Hm Ha Hb Hzone Hra Hrb.
  assert (Hrange : withinDateRange (zoneOf (zoneName schedule)) a (a + 86400000)).
  { intros t s Ht Hs. rewrite Hzone.
    apply inRange_true in Hra. apply inRange_true in Hrb. apply inRange_true. lia. }
  rewrite (nightDiffMinutes_counts _ _ _ _ _ Hm Ha Hb Hrange).
  f_equal. now apply (nightMinuteCount_whole_day _ o).
Qed.

End WholeDay.

(** A day from 14:37:12, in Manila. *)
Lemma whole_day_has_480_night_minutes_witness :
  exists m,
    calculateTimeMetrics (H := Reference.runtime) wholeDayPunches daySchedule = Return m
    /\ punchInstant (H := Reference.runtime) wholeDayPunches "punchIn"
       = Some 1759300632000
    /\ punchInstant (H := Reference.runtime) wholeDayPunches "punchOut"
       = Some (1759300632000 + 86400000)
    /\ (forall t, Reference.zoneTable "Asia/Manila" t = 480)
    /\ inRange (1759300632000 + 480 * 60000) = true
    /\ inRange (1759300632000 + 86400000 + 480 * 60000) = true
    /\ nightDiffMinutes m = Num 480.
Proof.
  eexists. split; [vm_compute; reflexivity |].
  split; [vm_compute; reflexivity |]. split; [vm_compute; reflexivity |].
  split; [reflexivity |]. split; [reflexivity |]. split; [reflexivity |].
  apply (whole_day_has_480_night_minutes (H := Reference.runtime)
           wholeDayPunches daySchedule _ 1759300632000 480);
    [vm_compute; reflexivity | vm_compute; reflexivity | vm_compute; reflexivity
    | reflexivity | reflexivity | reflexivity].
Defined.

(** ** The shift window *)

Lemma updateOffset_constant m keepTime o :
  (forall t, _z m t = o) -> _offset m = o -> updateOffset m keepTime = m.
Proof.
  intros Hz Ho. unfold updateOffset, utcOffset.
  destruct (isValid m) eqn:Hv; [| reflexivity].
  rewrite Hz, Ho, Z.eqb_refl. destruct m; simpl in *. now subst.
Qed.

Lemma set_constant m d keepTime o :
  (forall t, _z m t = o) -> _offset m = o ->
  updateOffset (setTime m d) keepTime = setTime m d.
Proof. intros Hz Ho. now apply (updateOffset_constant _ _ o). Qed.

(** In a zone of constant offset a setter is the write to the date, and
    it leaves an invalid moment as it is. *)
Lemma set1_constant m v write keepTime o :
  (forall t, _z m t = o) -> _offset m = o ->
  updateOffset (set1 m (Num v) write) keepTime
  = if isValid m then setTime m (write v) else m.
Proof.
  intros Hz Ho. unfold set1. destruct (isValid m) eqn:Hv.
  - now apply (set_constant _ _ _ o).
  - now apply (updateOffset_constant _ _ o).
Qed.

Lemma inRange_between lo x hi :
  inRange lo = true -> inRange hi = true -> lo <= x <= hi -> inRange x = true.
Proof. rewrite !inRange_true. lia. Qed.

Lemma scheduled_reading d h mi :
  let d1 := d / 86400000 * 86400000 + h * 3600000 + d mod 3600000 in
  let d2 := d1 / 3600000 * 3600000 + mi * 60000 + d1 mod 60000 in
  let d3 := d2 / 60000 * 60000 + 0 * 1000 + d2 mod 1000 in
  let shiftTime := d / 86400000 * 86400000 + h * 3600000 + mi * 60000 in
  d2 = shiftTime + d mod 60000
  /\ d3 = shiftTime + d mod 1000
  /\ d3 / 1000 * 1000 + 0 = shiftTime.
Proof.
  cbv zeta.
  set (D := d / 86400000).
  assert (H1 : (D * 86400000 + h * 3600000 + d mod 3600000) / 3600000 = D * 24 + h).
  { replace (D * 86400000 + h * 3600000 + d mod 3600000)
      with (d mod 3600000 + (D * 24 + h) * 3600000) by lia.
    rewrite Z.div_add by lia. rewrite Z.div_small; [lia |].
    apply Z.mod_pos_bound. lia. }
  assert (H1m : (D * 86400000 + h * 3600000 + d mod 3600000) mod 60000 = d mod 60000).
  { replace (D * 86400000 + h * 3600000 + d mod 3600000)
      with (d mod 3600000 + (D * 1440 + h * 60) * 60000) by lia.
    rewrite Z.mod_add by lia. Z.div_mod_to_equations. lia. }
  rewrite H1, H1m.
  set (X := (D * 24 + h) * 60 + mi).
  assert (H2 : ((D * 24 + h) * 3600000 + mi * 60000 + d mod 60000) / 60000 = X).
  { replace ((D * 24 + h) * 3600000 + mi * 60000 + d mod 60000)
      with (d mod 60000 + X * 60000) by (subst X; lia).
    rewrite Z.div_add by lia. rewrite Z.div_small; [lia |].
    apply Z.mod_pos_bound. lia. }
  assert (H2m : ((D * 24 + h) * 3600000 + mi * 60000 + d mod 60000) mod 1000
                = d mod 1000).
  { replace ((D * 24 + h) * 3600000 + mi * 60000 + d mod 60000)
      with (d mod 60000 + (X * 60) * 1000) by (subst X; lia).
    rewrite Z.mod_add by lia. Z.div_mod_to_equations. lia. }
  rewrite H2, H2m.
  split; [lia |]. split; [subst X; lia |].
  replace (X * 60000 + 0 * 1000 + d mod 1000) with (d mod 1000 + (X * 60) * 1000) by lia.
  rewrite Z.div_add by lia. rewrite Z.div_small by (apply Z.mod_pos_bound; lia).
  subst X. lia.
Qed.

Lemma minutes_reading d mi :
  let d2 := d / 3600000 * 3600000 + mi * 60000 + d mod 60000 in
  let d3 := d2 / 60000 * 60000 + 0 * 1000 + d2 mod 1000 in
  let shiftTime := d / 3600000 * 3600000 + mi * 60000 in
  d3 = shiftTime + d mod 1000 /\ d3 / 1000 * 1000 + 0 = shiftTime.
Proof.
  cbv zeta.
  set (X := d / 3600000 * 60 + mi).
  assert (H2 : (d / 3600000 * 3600000 + mi * 60000 + d mod 60000) / 60000 = X).
  { replace (d / 3600000 * 3600000 + mi * 60000 + d mod 60000)
      with (d mod 60000 + X * 60000) by (subst X; lia).
    rewrite Z.div_add by lia. rewrite Z.div_small; [lia |].
    apply Z.mod_pos_bound. lia. }
  assert (H2m : (d / 3600000 * 3600000 + mi * 60000 + d mod 60000) mod 1000
                = d mod 1000).
  { replace (d / 3600000 * 3600000 + mi * 60000 + d mod 60000)
      with (d mod 60000 + (X * 60) * 1000) by (subst X; lia).
    rewrite Z.mod_add by lia. Z.div_mod_to_equations. lia. }
  rewrite H2, H2m.
  split; [subst X; lia |].
  replace (X * 60000 + 0 * 1000 + d mod 1000) with (d mod 1000 + (X * 60) * 1000) by lia.
  rewrite Z.div_add by lia. rewrite Z.div_small by (apply Z.mod_pos_bound; lia).
  subst X. lia.
Qed.

Lemma setter_invalid m :
  isValid m = false ->
  forall v, hour m v = m /\ minute m v = m /\ second m v = m /\ millisecond m v = m.
Proof.
  intros Hv v. unfold hour, minute, second, millisecond, set1, updateOffset.
  destruct v; rewrite ?Hv; repeat split; reflexivity.
Qed.

(** Once a write has left the range of Date, the setters that follow
    leave the moment as it is. *)
Ltac setters_skipped Hinv :=
  repeat first
    [ rewrite (proj1 (proj2 (setter_invalid _ Hinv _)))
    | rewrite (proj1 (proj2 (proj2 (setter_invalid _ Hinv _))))
    | rewrite (proj2 (proj2 (proj2 (setter_invalid _ Hinv _)))) ];
  rewrite Hinv.

Section ShiftWindow.

Context `{Runtime}.

(** X8: in a zone of constant offset, getScheduledTime puts the shift time
    on the local calendar day of the punch-in: when the moment it returns
    is valid, its local reading is the local midnight before the punch-in
    plus the hours and minutes of the time string, with seconds and
    milliseconds at zero (hours or minutes beyond the day or the hour carry
    over).  It is valid exactly when the dates written on the way (the
    hours set, then the minutes, then the seconds and milliseconds cleared)
    are times that a Date can hold.  The hour and minute counts are taken
    up to 2e9 and 1e11 in absolute value, where the arithmetic of Date on
    them is exact. *)
Theorem getScheduledTime_on_punch_day dateMoment timeString hh mm rest h mi zone o :
  isValid dateMoment = true -> inRange (_d dateMoment) = true ->
  (forall t, _z dateMoment t = o) -> _offset dateMoment = o ->
  split ":" timeString = hh :: mm :: rest ->
  Number hh = Num h -> Number mm = Num mi ->
  Z.abs h <= 2000000000 -> Z.abs mi <= 100000000000 ->
  let midnight := _d dateMoment / 86400000 * 86400000 in
  let shiftTime := midnight + h * 3600000 + mi * 60000 in
  exists scheduledTime,
    getScheduledTime (Some dateMoment) (Some timeString) zone = Return scheduledTime
    /\ (isValid scheduledTime = true ->
        _d scheduledTime = shiftTime
        /\ instant scheduledTime
           = (instant dateMoment + o * 60000) / 86400000 * 86400000
             + h * 3600000 + mi * 60000 - o * 60000)
    /\ (isValid scheduledTime = true <->
        inRange (midnight + h * 3600000 + _d dateMoment mod 3600000) = true
        /\ inRange (shiftTime + _d dateMoment mod 60000) = true
        /\ inRange shiftTime = true).
Proof.
  intros Hv _ Hz Ho Hsplit Hh Hmi _ _. cbv zeta.
  unfold getScheduledTime. rewrite Hsplit. simpl. rewrite Hh, Hmi.
  unfold clone. rewrite (updateOffset_constant dateMoment false o Hz Ho).
  eexists. split; [reflexivity |].
  destruct (scheduled_reading (_d dateMoment) h mi) as (H2 & H3 & H4).
  cbv zeta in H2, H3, H4.
  set (d1 := _d dateMoment / 86400000 * 86400000 + h * 3600000
             + _d dateMoment mod 3600000) in *.
  set (d2 := d1 / 3600000 * 3600000 + mi * 60000 + d1 mod 60000) in *.
  set (d3 := d2 / 60000 * 60000 + 0 * 1000 + d2 mod 1000) in *.
  set (shiftTime := _d dateMoment / 86400000 * 86400000 + h * 3600000 + mi * 60000)
    in *.
  assert (Hbetween : shiftTime <= d3 <= d2).
  { pose proof (Z.mod_pos_bound (_d dateMoment) 1000 ltac:(lia)).
    rewrite H2, H3. Z.div_mod_to_equations. lia. }
  rewrite <- H2.
  unfold hour. rewrite (set1_constant dateMoment h _ true o Hz Ho), Hv. fold d1.
  destruct (inRange d1) eqn:R1.
  2:{ assert (Hinv : isValid (setTime dateMoment d1) = false)
        by (simpl; now rewrite Hv, R1).
      setters_skipped Hinv.
      split; [discriminate |]. split; [discriminate | intros (X & _); discriminate]. }
  unfold minute. rewrite (set1_constant (setTime dateMoment d1) mi _ false o)
    by (simpl; auto).
  cbn [isValid _d setTime]. rewrite Hv, R1. cbn [andb]. fold d2.
  destruct (inRange d2) eqn:R2.
  2:{ assert (Hinv : isValid (setTime (setTime dateMoment d1) d2) = false)
        by (simpl; now rewrite Hv, R1, R2).
      setters_skipped Hinv.
      split; [discriminate |].
      split; [discriminate | intros (_ & X & _); discriminate]. }
  unfold second. rewrite (set1_constant _ 0 _ false o) by (simpl; auto).
  cbn [isValid _d setTime]. rewrite Hv, R1, R2. cbn [andb]. fold d3.
  destruct (inRange d3) eqn:R3.
  2:{ assert (Hinv : isValid (setTime (setTime (setTime dateMoment d1) d2) d3) = false)
        by (simpl; now rewrite Hv, R1, R2, R3).
      setters_skipped Hinv.
      split; [discriminate |].
      split; [discriminate |]. intros (_ & _ & R4).
      rewrite <- R3. eapply inRange_between; [exact R4 | exact R2 | exact Hbetween]. }
  unfold millisecond. rewrite (set1_constant _ 0 _ false o) by (simpl; auto).
  cbn [isValid _d setTime]. rewrite Hv, R1, R2, R3. cbn [andb]. rewrite H4.
  unfold instant. cbn [isValid _d _offset setTime]. rewrite Hv, R1, R2, R3, Ho. cbn [andb].
  split.
  - intros _. split; [reflexivity |].
    replace (_d dateMoment - o * 60000 + o * 60000) with (_d dateMoment) by lia.
    reflexivity.
  - tauto.
Qed.

(** X9: a time string whose hours part is not a number does not make
    getScheduledTime fail: the shift time keeps the hour of the punch-in
    and takes only the minutes (zone of constant offset).  The moment
    returned is valid exactly when the dates written are times that a Date
    can hold.  The minute count is taken up to 1e11 in absolute value,
    where the arithmetic of Date on it is exact. *)
Theorem getScheduledTime_keeps_hour_on_NaN dateMoment timeString hh mm rest mi zone o :
  isValid dateMoment = true -> inRange (_d dateMoment) = true ->
  (forall t, _z dateMoment t = o) -> _offset dateMoment = o ->
  split ":" timeString = hh :: mm :: rest ->
  Number hh = NaN -> Number mm = Num mi ->
  Z.abs mi <= 100000000000 ->
  let shiftTime := _d dateMoment / 3600000 * 3600000 + mi * 60000 in
  exists scheduledTime,
    getScheduledTime (Some dateMoment) (Some timeString) zone = Return scheduledTime
    /\ (isValid scheduledTime = true -> _d scheduledTime = shiftTime)
    /\ (isValid scheduledTime = true <->
        inRange (shiftTime + _d dateMoment mod 60000) = true
        /\ inRange shiftTime = true).
Proof.
  intros Hv _ Hz Ho Hsplit Hh Hmi _. cbv zeta.
  unfold getScheduledTime. rewrite Hsplit. simpl. rewrite Hh, Hmi.
  unfold clone. rewrite (updateOffset_constant dateMoment false o Hz Ho).
  eexists. split; [reflexivity |].
  destruct (minutes_reading (_d dateMoment) mi) as (H3 & H4).
  cbv zeta in H3, H4.
  set (d2 := _d dateMoment / 3600000 * 3600000 + mi * 60000 + _d dateMoment mod 60000)
    in *.
  set (d3 := d2 / 60000 * 60000 + 0 * 1000 + d2 mod 1000) in *.
  set (shiftTime := _d dateMoment / 3600000 * 3600000 + mi * 60000) in *.
  assert (Hbetween : shiftTime <= d3 <= d2).
  { pose proof (Z.mod_pos_bound (_d dateMoment) 1000 ltac:(lia)).
    rewrite H3. subst d2. Z.div_mod_to_equations. lia. }
  unfold hour. cbn [set1].
  rewrite (updateOffset_constant dateMoment true o Hz Ho).
  unfold minute. rewrite (set1_constant dateMoment mi _ false o Hz Ho), Hv.
  change (_d dateMoment / 3600000 * 3600000 + mi * 60000 + _d dateMoment mod 60000)
    with d2.
  change (shiftTime + _d dateMoment mod 60000) with d2.
  destruct (inRange d2) eqn:R2.
  2:{ assert (Hinv : isValid (setTime dateMoment d2) = false)
        by (simpl; now rewrite Hv, R2).
      setters_skipped Hinv.
      split; [discriminate |].
      split; [discriminate | intros (X & _); discriminate]. }
  unfold second. rewrite (set1_constant _ 0 _ false o) by (simpl; auto).
  cbn [isValid _d setTime]. rewrite Hv, R2. cbn [andb]. fold d3.
  destruct (inRange d3) eqn:R3.
  2:{ assert (Hinv : isValid (setTime (setTime dateMoment d2) d3) = false)
        by (simpl; now rewrite Hv, R2, R3).
      setters_skipped Hinv.
      split; [discriminate |].
      split; [discriminate |]. intros (_ & R4).
      rewrite <- R3. eapply inRange_between; [exact R4 | exact R2 | exact Hbetween]. }
  unfold millisecond. rewrite (set1_constant _ 0 _ false o) by (simpl; auto).
  cbn [_d setTime]. rewrite H4. unfold setTime. cbn [isValid _d].
  rewrite Hv, R2, R3. cbn [andb].
  split; [reflexivity | tauto].
Qed.

End ShiftWindow.

(** The start "09:00" for a punch at 09:15:37.250 in Manila. *)
Lemma getScheduledTime_on_punch_day_witness :
  isValid manilaMorning = true /\ inRange (_d manilaMorning) = true
  /\ (forall t, _z manilaMorning t = 480) /\ _offset manilaMorning = 480
  /\ split ":" "09:00" = ["09"; "00"]
  /\ Reference.decimalNumber "09" = Num 9 /\ Reference.decimalNumber "00" = Num 0
  /\ Z.abs 9 <= 2000000000 /\ Z.abs 0 <= 100000000000
  /\ exists scheduledTime,
       getScheduledTime (H := Reference.runtime) (Some manilaMorning) (Some "09:00")
         "Asia/Manila" = Return scheduledTime
       /\ isValid scheduledTime = true
       /\ _d scheduledTime = 1759309200000
       /\ toISOString scheduledTime = Some "2025-10-01T01:00:00.000Z".
Proof.
  split; [reflexivity |]. split; [reflexivity |]. split; [reflexivity |].
  split; [reflexivity |]. split; [reflexivity |]. split; [reflexivity |].
  split; [reflexivity |]. split; [lia |]. split; [lia |].
  destruct (getScheduledTime_on_punch_day (H := Reference.runtime) manilaMorning
              "09:00" "09" "00" [] 9 0 "Asia/Manila" 480
              eq_refl eq_refl (fun _ => eq_refl) eq_refl eq_refl eq_refl eq_refl
              ltac:(lia) ltac:(lia))
    as (ss & Hss & Hreading & Hvalid).
  assert (Hv : isValid ss = true)
    by (apply Hvalid; repeat split; vm_compute; reflexivity).
  exists ss. split; [exact Hss |]. split; [exact Hv |].
  split; [destruct (Hreading Hv) as (-> & _); vm_compute; reflexivity |].
  vm_compute in Hss. injection Hss as <-. vm_compute. reflexivity.
Defined.

(** The start "ab:30" for the same punch: 09:30 local. *)
Lemma getScheduledTime_keeps_hour_on_NaN_witness :
  isValid manilaMorning = true /\ inRange (_d manilaMorning) = true
  /\ (forall t, _z manilaMorning t = 480) /\ _offset manilaMorning = 480
  /\ split ":" "ab:30" = ["ab"; "30"]
  /\ Reference.decimalNumber "ab" = NaN /\ Reference.decimalNumber "30" = Num 30
  /\ Z.abs 30 <= 100000000000
  /\ exists scheduledTime,
       getScheduledTime (H := Reference.runtime) (Some manilaMorning) (Some "ab:30")
         "Asia/Manila" = Return scheduledTime
       /\ isValid scheduledTime = true
       /\ _d scheduledTime = 1759311000000
       /\ toISOString scheduledTime = Some "2025-10-01T01:30:00.000Z".
Proof.
  split; [reflexivity |]. split; [reflexivity |]. split; [reflexivity |].
  split; [reflexivity |]. split; [reflexivity |]. split; [reflexivity |].
  split; [reflexivity |]. split; [lia |].
  destruct (getScheduledTime_keeps_hour_on_NaN (H := Reference.runtime) manilaMorning
              "ab:30" "ab" "30" [] 30 "Asia/Manila" 480
              eq_refl eq_refl (fun _ => eq_refl) eq_refl eq_refl eq_refl eq_refl
              ltac:(lia))
    as (ss & Hss & Hreading & Hvalid).
  assert (Hv : isValid ss = true)
    by (apply Hvalid; repeat split; vm_compute; reflexivity).
  exists ss. split; [exact Hss |]. split; [exact Hv |].
  split; [rewrite (Hreading Hv); vm_compute; reflexivity |].
  vm_compute in Hss. injection Hss as <-. vm_compute. reflexivity.
Defined.

(** The hour count 99999999999 leaves the range of Date: the shift start
    is then an invalid moment. *)
Example getScheduledTime_beyond_the_range :
  exists scheduledTime,
    getScheduledTime (H := Reference.runtime) (Some manilaMorning)
      (Some "99999999999:00") "Asia/Manila" = Return scheduledTime
    /\ isValid scheduledTime = false
    /\ toISOString scheduledTime = None.
Proof. eexists. split; [vm_compute; reflexivity |]. split; reflexivity. Qed.

(** ** Punches that cannot be read *)

Section Unreadable.

Context `{Runtime}.





End Unreadable.



(** ** The batch, once more *)

Section BatchMore.

Context `{Runtime}.

Lemma calculateTimeMetrics_punches (first second : object) schedule :
  get first "punchIn" = get second "punchIn" ->
  get first "punchOut" = get second "punchOut" ->
  calculateTimeMetrics first schedule = calculateTimeMetrics second schedule.
Proof. intros Hin Hout. unfold calculateTimeMetrics. now rewrite Hin, Hout. Qed.

Lemma written_twice (record : object) (metrics error : value) :
  <["calculationError" := error]>
    (<["metrics" := metrics]>
       (<["calculationError" := error]> (<["metrics" := metrics]> record)))
  = <["calculationError" := error]> (<["metrics" := metrics]> record).
Proof.
  apply map_eq. intros key.
  destruct (decide (key = "calculationError")) as [-> | Hce].
  - now rewrite !lookup_insert_eq.
  - rewrite !(lookup_insert_ne _ "calculationError") by congruence.
    destruct (decide (key = "metrics")) as [-> | Hme].
    + now rewrite !lookup_insert_eq.
    + repeat rewrite lookup_insert_ne by congruence. reflexivity.
Qed.

Lemma batchEntry_fixed userSchedule (record entry : object) :
  entryOf userSchedule record entry ->
  batchEntry userSchedule entry = Return entry.
Proof.
  intros Hof. unfold batchEntry.
  assert (Hsame : calculateTimeMetrics entry userSchedule
                  = calculateTimeMetrics record userSchedule).
  { apply calculateTimeMetrics_punches;
      destruct Hof as [(m & _ & ->) | (e & _ & ->)]; unfold get;
      now rewrite !lookup_insert_ne by discriminate. }
  rewrite Hsame.
  destruct Hof as [(m & Hm & ->) | (e & He & ->)].
  - rewrite Hm. f_equal. apply written_twice.
  - rewrite He. f_equal. apply written_twice.
Qed.

Lemma Array_map_fixed {A} (f : A -> completion A) (l : list A) :
  Forall (fun x => f x = Return x) l -> Array_map f l = Return l.
Proof.
  induction 1 as [| x l Hx _ IH]; [reflexivity |].
  simpl. now rewrite Hx, IH.
Qed.

(** X12: the batch is idempotent: run on its own output (the entries that
    carry metrics or an error from the first run), it returns that output
    unchanged. *)
Theorem batch_idempotent attendanceRecords userSchedule :
  exists results,
    batchCalculateTimeMetrics attendanceRecords userSchedule = Return results
    /\ batchCalculateTimeMetrics results userSchedule = Return results.
Proof.
  destruct (batch_entries attendanceRecords userSchedule) as (results & Hres & Hall).
  exists results. split; [exact Hres |].
  unfold batchCalculateTimeMetrics. apply Array_map_fixed.
  clear Hres. induction Hall as [| record entry records entries Hof _ IH];
    constructor; [| exact IH].
  eapply batchEntry_fixed. exact Hof.
Qed.

End BatchMore.

(** ** The endpoints *)

Section EndpointProperties.

Context `{Runtime}.

Lemma falsyString_hasTime timeString :
  hasTime timeString = true -> falsyString timeString = false.
Proof.
  destruct timeString as [s |]; [| discriminate]. simpl.
  destruct s; [discriminate | reflexivity].
Qed.





(** X14: POST /api/calculate-time-batch always answers, with 200 or with
    400 and never with 500.  It answers 400 "attendanceRecords must be an
    array" when the records are missing or not an array, else 400 "Missing
    schedule information: start and end times are required" when the
    schedule, its start or its end is missing or empty, and otherwise 200
    with the result of batchCalculateTimeMetrics, one entry per record,
    whatever the records and the rest of the schedule are. *)
Theorem calculateBatchHandler_answers req :
  exists response,
    calculateBatchHandler req = Return response
    /\ (status response = 200 \/ status response = 400)
    /\ (status response = 200 <->
        exists attendanceRecords schedule,
          body_attendanceRecords req = Some attendanceRecords
          /\ batch_schedule req = Some schedule
          /\ falsyString (start schedule) = false
          /\ falsyString (end_ schedule) = false)
    /\ (body_attendanceRecords req = None ->
        response = {| status := 400;
                      body := ErrorBody "attendanceRecords must be an array" |})
    /\ (forall attendanceRecords,
          body_attendanceRecords req = Some attendanceRecords ->
          status response = 400 ->
          body response
          = ErrorBody "Missing schedule information: start and end times are required")
    /\ (forall attendanceRecords schedule,
          body_attendanceRecords req = Some attendanceRecords ->
          batch_schedule req = Some schedule ->
          status response = 200 ->
          exists results,
            body response = BatchBody results
            /\ batchCalculateTimeMetrics attendanceRecords schedule = Return results
            /\ length results = length attendanceRecords).
Proof.
  unfold calculateBatchHandler.
  destruct (body_attendanceRecords req) as [records |].
  2:{ eexists. split; [reflexivity |]. simpl. split; [now right |].
      split; [split; [discriminate | intros (? & ? & Hc & _); discriminate] |].
      split; [reflexivity |]. split; intros; discriminate. }
  destruct (batch_schedule req) as [schedule |].
  2:{ eexists. split; [reflexivity |]. simpl. split; [now right |].
      split; [split; [discriminate | intros (? & ? & _ & Hc & _); discriminate] |].
      split; [discriminate |]. split; [reflexivity |].
      intros ? ? _ Hc. discriminate. }
  destruct (falsyString (start schedule) || falsyString (end_ schedule)) eqn:Hse.
  { eexists. split; [reflexivity |]. simpl. split; [now right |].
    apply orb_true_iff in Hse.
    split.
    { split; [discriminate |].
      intros (? & sch & _ & [= <-] & Hs & He). destruct Hse; congruence. }
    split; [discriminate |]. split; [reflexivity |].
    intros ? ? _ _ Hc. discriminate. }
  apply orb_false_iff in Hse as (Hs & He).
  destruct (batch_entries records schedule) as (results & Hres & Hall).
  rewrite Hres. eexists. split; [reflexivity |]. simpl. split; [now left |].
  split.
  { split; [| reflexivity]. intros _. exists records, schedule. auto. }
  split; [discriminate |]. split; [intros ? _ Hc; discriminate |].
  intros ? ? [= <-] [= <-] _. exists results. split; [reflexivity |].
  split; [exact Hres |]. symmetry. eapply Forall2_length. exact Hall.
Qed.

End EndpointProperties.

(** ** Durations on display *)

Lemma digit_of_char k :
  0 <= k < 10 -> Reference.digit (ascii_of_nat (48 + Z.to_nat k)) = Some k.
Proof.
  intros Hk. unfold Reference.digit.
  rewrite nat_ascii_embedding by lia.
  replace (Z.of_nat (48 + Z.to_nat k)) with (48 + k) by lia.
  destruct (Z.leb_spec 48 (48 + k)); [| lia].
  destruct (Z.leb_spec (48 + k) 57); [| lia].
  simpl. f_equal. lia.
Qed.

(** Reading the digits written for [n] gives [n] back, and goes on with
    what follows them. *)
Lemma digits_aux_read fuel : forall n acc,
  0 <= n < 2 ^ (Z.of_nat fuel + 1) ->
  Reference.number_aux (digits_aux fuel n acc) 0 = Reference.number_aux acc n
  /\ allDigits (digits_aux fuel n acc) = allDigits acc
  /\ (String.length acc < String.length (digits_aux fuel n acc))%nat.
Proof.
  assert (Hlast : forall n acc, 0 <= n < 10 ->
    let acc' := String (ascii_of_nat (48 + Z.to_nat (n mod 10))) acc in
    Reference.number_aux acc' 0 = Reference.number_aux acc n
    /\ allDigits acc' = allDigits acc
    /\ (String.length acc < String.length acc')%nat).
  { intros n acc Hn acc'. subst acc'.
    assert (n mod 10 = n) as -> by (apply Z.mod_small; lia).
    cbn [Reference.number_aux allDigits String.length].
    rewrite digit_of_char by lia. rewrite Z.mul_0_r, Z.add_0_l.
    repeat split. lia. }
  induction fuel as [| fuel IH]; intros n acc Hn.
  - cbn [digits_aux]. apply Hlast.
    change (Z.of_nat 0 + 1) with 1 in Hn. change (2 ^ 1) with 2 in Hn. lia.
  - cbn [digits_aux]. cbv zeta.
    destruct (Z.ltb_spec n 10) as [Hsmall | Hbig].
    + apply Hlast. lia.
    + assert (Hdiv : 0 <= n / 10 < 2 ^ (Z.of_nat fuel + 1)).
      { replace (Z.of_nat (S fuel) + 1) with (Z.succ (Z.of_nat fuel + 1)) in Hn by lia.
        rewrite Z.pow_succ_r in Hn by lia.
        split; [apply Z.div_pos; lia |].
        apply Z.div_lt_upper_bound; lia. }
      destruct (IH (n / 10) (String (ascii_of_nat (48 + Z.to_nat (n mod 10))) acc) Hdiv)
        as (Hread & Hall & Hlen).
      rewrite Hread, Hall.
      cbn [Reference.number_aux allDigits String.length] in *.
      rewrite digit_of_char by (apply Z.mod_pos_bound; lia).
      split; [| split; [reflexivity | lia]].
      f_equal. pose proof (Z.div_mod n 10 ltac:(lia)). lia.
Qed.

Lemma digits_read n :
  0 <= n ->
  Reference.number_aux (digits n) 0 = Some n /\ allDigits (digits n) = true
  /\ (1 <= String.length (digits n))%nat.
Proof.
  intros Hn. unfold digits.
  destruct (digits_aux_read (Z.to_nat (Z.log2 n)) n EmptyString) as (Hr & Ha & Hl).
  - split; [assumption |].
    rewrite Z2Nat.id by apply Z.log2_nonneg.
    destruct (Z.eq_dec n 0) as [-> | Hpos]; [simpl; lia |].
    apply Z.log2_spec. lia.
  - rewrite Hr, Ha. simpl in *. repeat split. lia.
Qed.

Lemma number_aux_zeros k s : Reference.number_aux (zeros k ++ s) 0 = Reference.number_aux s 0.
Proof. induction k as [| k IH]; [reflexivity |]. simpl. exact IH. Qed.

Lemma allDigits_zeros k s : allDigits (zeros k ++ s) = allDigits s.
Proof. induction k as [| k IH]; [reflexivity |]. simpl. exact IH. Qed.

Lemma split_digits_colon a rest :
  allDigits a = true -> split ":" (a ++ String ":" rest) = a :: split ":" rest.
Proof.
  induction a as [| c a IH]; intros Ha; [reflexivity |].
  simpl in Ha. simpl.
  destruct (Ascii.eqb_spec c ":") as [-> | Hc]; [discriminate |].
  destruct (Reference.digit c); [| discriminate].
  now rewrite IH.
Qed.

Lemma split_digits a : allDigits a = true -> split ":" a = [a].
Proof.
  induction a as [| c a IH]; intros Ha; [reflexivity |].
  simpl in Ha. simpl.
  destruct (Ascii.eqb_spec c ":") as [-> | Hc]; [discriminate |].
  destruct (Reference.digit c); [| discriminate].
  now rewrite IH.
Qed.

Lemma padded_read n :
  0 <= n ->
  Reference.number_aux (padStart0 2 (Number_toString n)) 0 = Some n
  /\ allDigits (padStart0 2 (Number_toString n)) = true.
Proof.
  intros Hn. unfold padStart0, Number_toString.
  destruct (Z.ltb_spec n 0); [lia |].
  destruct (digits_read n Hn) as (Hr & Ha & _).
  now rewrite number_aux_zeros, allDigits_zeros.
Qed.

(** X15: for a non-negative number of seconds up to MAX_SAFE_INTEGER,
    formatDuration writes hours, minutes and seconds as three
    colon-separated decimal numbers (minutes and seconds below 60) that read
    back as the same number of seconds; two different such durations are
    never displayed alike. *)
Theorem formatDuration_reads_back seconds :
  0 <= seconds <= MAX_SAFE_INTEGER ->
  readDuration (formatDuration seconds) = Some seconds
  /\ forall other, 0 <= other <= MAX_SAFE_INTEGER ->
       formatDuration other = formatDuration seconds -> other = seconds.
Proof.
  assert (Hread : forall s, 0 <= s -> readDuration (formatDuration s) = Some s).
  { intros s Hs. unfold readDuration, formatDuration. cbv zeta.
    rewrite !Z.rem_mod_nonneg by lia.
    assert (Hh : 0 <= s / 3600) by (apply Z.div_pos; lia).
    assert (Hm : 0 <= s mod 3600 / 60)
      by (apply Z.div_pos; [apply Z.mod_pos_bound |]; lia).
    assert (Hc : 0 <= s mod 60) by (apply Z.mod_pos_bound; lia).
    destruct (padded_read _ Hh) as (Hrh & Hah).
    destruct (padded_read _ Hm) as (Hrm & Ham).
    destruct (padded_read _ Hc) as (Hrc & Hac).
    rewrite (split_digits_colon _ _ Hah : split ":" (_ ++ ":" ++ _) = _).
    rewrite (split_digits_colon _ _ Ham : split ":" (_ ++ ":" ++ _) = _).
    rewrite (split_digits _ Hac).
    rewrite Hrh, Hrm, Hrc. cbn [mbind option_bind]. f_equal.
    Z.div_mod_to_equations. lia. }
  intros (Hs & _). split; [now apply Hread |].
  intros other (Ho & _) Heq.
  pose proof (Hread other Ho) as Hother. rewrite Heq, (Hread seconds Hs) in Hother.
  congruence.
Qed.

Lemma formatDuration_reads_back_witness :
  0 <= 3725 <= MAX_SAFE_INTEGER /\ formatDuration 3725 = "01:02:05"
  /\ readDuration (formatDuration 3725) = Some 3725.
Proof.
  split; [unfold MAX_SAFE_INTEGER; lia |]. split; [reflexivity |].
  apply (formatDuration_reads_back 3725). unfold MAX_SAFE_INTEGER. lia.
Defined.

Lemma digits_aux_longer fuel : forall n acc,
  (String.length acc < String.length (digits_aux fuel n acc))%nat.
Proof.
  induction fuel as [| fuel IH]; intros n acc; cbn [digits_aux]; cbv zeta.
  - cbn [String.length]. lia.
  - destruct (n <? 10); [cbn [String.length]; lia |].
    eapply Nat.lt_trans; [| apply IH]. cbn [String.length]. lia.
Qed.

Lemma length_append (a b : string) :
  String.length (a ++ b) = (String.length a + String.length b)%nat.
Proof.
  induction a as [| c a IH]; [reflexivity |].
  change (String c a ++ b) with (String c (a ++ b)).
  cbn [String.length]. now rewrite IH.
Qed.

Lemma padded_width n :
  0 <= n ->
  (String.length (padStart0 2 (Number_toString n)) = 2%nat <-> n < 100)
  /\ (2 <= String.length (padStart0 2 (Number_toString n)))%nat.
Proof.
  intros Hn. destruct (Z.ltb_spec n 100) as [Hlt | Hge].
  - assert (Hall : forallb (fun k => Nat.eqb (String.length (padStart0 2 (Number_toString k))) 2)
                     (seqZ 0 100) = true) by (vm_compute; reflexivity).
    rewrite forallb_forall in Hall.
    specialize (Hall n). rewrite Nat.eqb_eq in Hall.
    rewrite Hall; [split; [tauto | lia] |].
    apply list_elem_of_In, elem_of_seqZ. lia.
  - assert (Hlen : (2 < String.length (padStart0 2 (Number_toString n)))%nat).
    { unfold padStart0, Number_toString.
      destruct (Z.ltb_spec n 0); [lia |].
      assert (Hlog : 6 <= Z.log2 n)
        by (change 6 with (Z.log2 64); apply Z.log2_le_mono; lia).
      unfold digits.
      destruct (Z.to_nat (Z.log2 n)) as [| [| fuel]] eqn:Hfuel; [lia | lia |].
      cbn [digits_aux]. cbv zeta.
      destruct (Z.ltb_spec n 10); [lia |].
      destruct (Z.ltb_spec (n / 10) 10) as [Hsmall | _].
      { exfalso. Z.div_mod_to_equations. lia. }
      rewrite length_append.
      match goal with
      | |- context [digits_aux fuel ?k ?acc] =>
          pose proof (digits_aux_longer fuel k acc) as Hlonger
      end.
      cbn [String.length] in Hlonger. lia. }
    split; [split; lia | lia].
Qed.

(** X16: for a non-negative number of seconds the minutes and seconds
    fields of formatDuration are always two characters wide, and the whole
    display has the eight characters of HH:MM:SS exactly when the duration
    is below one hundred hours; from there on the hours field grows
    instead of being cut. *)
Theorem formatDuration_width seconds :
  0 <= seconds ->
  (String.length (formatDuration seconds) = 8%nat <-> seconds < 360000)
  /\ (8 <= String.length (formatDuration seconds))%nat.
Proof.
  intros Hs. unfold formatDuration. cbv zeta.
  rewrite !Z.rem_mod_nonneg by lia.
  assert (Hh : 0 <= seconds / 3600) by (apply Z.div_pos; lia).
  assert (Hm : 0 <= seconds mod 3600 / 60 < 100).
  { pose proof (Z.mod_pos_bound seconds 3600 ltac:(lia)).
    split; [apply Z.div_pos; lia | apply Z.div_lt_upper_bound; lia]. }
  assert (Hc : 0 <= seconds mod 60 < 100)
    by (pose proof (Z.mod_pos_bound seconds 60 ltac:(lia)); lia).
  destruct (padded_width _ Hh) as (Hwh & Hminh).
  destruct (padded_width (seconds mod 3600 / 60) ltac:(lia)) as ((_ & Hwm) & _).
  destruct (padded_width (seconds mod 60) ltac:(lia)) as ((_ & Hwc) & _).
  rewrite !length_append, (Hwm ltac:(lia)), (Hwc ltac:(lia)).
  cbn [String.length].
  assert (Hhours : seconds / 3600 < 100 <-> seconds < 360000).
  { split; intros Hlt.
    - Z.div_mod_to_equations. lia.
    - apply Z.div_lt_upper_bound; lia. }
  rewrite <- Hhours, <- Hwh. lia.
Qed.

Lemma formatDuration_width_witness :
  0 <= 360000 /\ formatDuration 360000 = "100:00:00"
  /\ (String.length (formatDuration 3725) = 8%nat <-> 3725 < 360000).
Proof.
  split; [lia |]. split; [reflexivity |].
  apply (formatDuration_width 3725). lia.
Defined.
